(** * Eco-tourism climate-risk API: a shallow embedding of [api/index.py]

    The service is one Python module: four process-wide dictionaries
    ([models], [scalers], [encoders], [feature_names]), a loader that fills
    them from pickled artifacts, a preprocessing routine, and two JSON
    endpoints ([/api/predict], [/api/health]).

    The embedding keeps the module's shape:
    - Python values are an inductive type, floats are IEEE binary64
      (the kernel's primitive floats), ints are [Z];
    - a [dict] is an insertion-ordered association list with string keys;
    - exceptions are values carrying their class and their [str()];
    - module-level state and [print] are threaded through a state monad in
      which a raised exception keeps the mutations made before it, as in
      Python;
    - what the module calls but does not define (the file system, [joblib],
      [json], the fitted scikit-learn objects, [str()] of a non-string,
      pandas' [astype(int)]) is a field of a record the functions take. *)

From Stdlib Require Import ZArith QArith Lqa List String Ascii Bool Lia Floats DecimalString.
Import ListNotations.

Set Warnings "-inexact-float,-register-all,-notation-for-abbreviation".

Local Open Scope string_scope.
Local Open Scope list_scope.
Local Open Scope Z_scope.

(* ===================================================================== *)
(** ** Python runtime: exceptions, values, strings                        *)
(* ===================================================================== *)

Module Py.

(** The exception classes that can reach the handlers of [index.py].  Every
    one of them derives from [Exception], so [except Exception] catches
    all of them. *)
Inductive exn_class : Type :=
| Exception
| KeyError
| IndexError
| TypeError
| ValueError
| OverflowError
| AttributeError
| OSError
| HTTPException.

(** An exception instance: its class and what [str(e)] returns. *)
Record exn : Type := mk_exn { exn_kind : exn_class; exn_str : string }.

Inductive result (A : Type) : Type :=
| Ok (a : A)
| Raise (e : exn).
Arguments Ok {A} a.
Arguments Raise {A} e.

Definition bind {A B : Type} (r : result A) (k : A -> result B) : result B :=
  match r with
  | Ok a => k a
  | Raise e => Raise e
  end.

Definition is_ok {A : Type} (r : result A) : bool :=
  match r with Ok _ => true | Raise _ => false end.

(** JSON-shaped Python values: what [request.json] yields and what
    [jsonify] takes. *)
Inductive pyval : Type :=
| VNone
| VBool (b : bool)
| VInt (z : Z)
| VFloat (f : float)
| VStr (s : string)
| VList (l : list pyval)
| VDict (d : list (string * pyval)).

(** A numpy scalar, as a fitted estimator's [predict] returns it. *)
Inductive scalar : Type :=
| SInt (z : Z)
| SFloat (f : float).

(** [len(l)] as a Python int. *)
Definition len {A : Type} (l : list A) : Z := Z.of_nat (List.length l).

(** [str(z)] of an int. *)
Definition str_int (z : Z) : string := NilZero.string_of_int (Z.to_int z).

(** Indexing with an int: a negative index counts from the end, an index
    outside [-len, len) raises [IndexError] with the message [msg]. *)
Definition index_with {A : Type} (msg : string) (l : list A) (i : Z) : result A :=
  let j := if i <? 0 then i + len l else i in
  if (j <? 0) || (len l <=? j)
  then Raise (mk_exn IndexError msg)
  else match nth_error l (Z.to_nat j) with
       | Some a => Ok a
       | None => Raise (mk_exn IndexError msg)
       end.

(** [l[i]] on a Python list. *)
Definition list_index {A : Type} (l : list A) (i : Z) : result A :=
  index_with "list index out of range" l i.

(** [a[i]] on a one-dimensional numpy array. *)
Definition array_index {A : Type} (a : list A) (i : Z) : result A :=
  index_with ("index " ++ str_int i ++ " is out of bounds for axis 0 with size "
              ++ str_int (len a))%string a i.

(** [range(n)] *)
Definition range (n : Z) : list Z := map Z.of_nat (seq 0 (Z.to_nat n)).

(** [float(z)] for a Python int: the nearest binary64 (ties to even),
    [OverflowError] when that is not finite. *)
Definition float_of_Z (z : Z) : float :=
  SF2Prim (binary_normalize prec emax z 0 false).

Definition float_of_int (z : Z) : result float :=
  let f := float_of_Z z in
  if PrimFloat.is_infinity f
  then Raise (mk_exn OverflowError "int too large to convert to float")
  else Ok f.

(** [float(x)] and [x < c] for a numpy scalar and a Python float [c]: an
    integer scalar is converted to binary64 first. *)
Definition float_of_scalar (x : scalar) : float :=
  match x with
  | SFloat f => f
  | SInt z => float_of_Z z
  end.

Definition scalar_lt_float (x : scalar) (c : float) : bool :=
  (float_of_scalar x <? c)%float.

(** [x < n] for a numpy scalar and a Python int [n]. *)
Definition scalar_lt_int (x : scalar) (n : Z) : bool :=
  match x with
  | SInt z => z <? n
  | SFloat f => (f <? float_of_Z n)%float
  end.

(** [l[x]] with a numpy scalar as the index: only an integer indexes. *)
Definition list_index_scalar {A : Type} (l : list A) (x : scalar) : result A :=
  match x with
  | SInt z => list_index l z
  | SFloat _ =>
      Raise (mk_exn TypeError
               "list indices must be integers or slices, not numpy.float64")
  end.

(** [v * c] for a float constant [c]: ints and bools are converted to
    float first; every other operand type raises [TypeError]. *)
Definition mul_float (v : pyval) (c : float) : result pyval :=
  match v with
  | VInt z => bind (float_of_int z) (fun f => Ok (VFloat (f * c)%float))
  | VBool b => Ok (VFloat ((if b then 1 else 0) * c)%float)
  | VFloat f => Ok (VFloat (f * c)%float)
  | VStr _ | VList _ =>
      Raise (mk_exn TypeError "can't multiply sequence by non-int of type 'float'")
  | VNone =>
      Raise (mk_exn TypeError "unsupported operand type(s) for *: 'NoneType' and 'float'")
  | VDict _ =>
      Raise (mk_exn TypeError "unsupported operand type(s) for *: 'dict' and 'float'")
  end.

(** *** [repr] of a [str] and of a list of [str]

    Exact on ASCII: the quote is the apostrophe, unless the string holds
    an apostrophe and no double quote; the quote and the backslash are
    escaped, tab, newline and carriage return get their short escapes and
    the other control characters the form xNN after a backslash.  Bytes
    above 127 are copied, as Python copies a printable non-ASCII
    character. *)

Definition squote : ascii := ascii_of_nat 39.
Definition dquote : ascii := ascii_of_nat 34.
Definition backslash : ascii := ascii_of_nat 92.

Definition hex_digit (n : nat) : ascii :=
  match n with
  | 0%nat => "0" | 1%nat => "1" | 2%nat => "2" | 3%nat => "3"
  | 4%nat => "4" | 5%nat => "5" | 6%nat => "6" | 7%nat => "7"
  | 8%nat => "8" | 9%nat => "9" | 10%nat => "a" | 11%nat => "b"
  | 12%nat => "c" | 13%nat => "d" | 14%nat => "e" | _ => "f"
  end%char.

Fixpoint contains_char (c : ascii) (s : string) : bool :=
  match s with
  | EmptyString => false
  | String a s' => Ascii.eqb a c || contains_char c s'
  end.

Definition repr_char (quote : ascii) (c : ascii) : string :=
  let n := nat_of_ascii c in
  if Ascii.eqb c quote || Ascii.eqb c backslash then String backslash (String c "")
  else if Nat.eqb n 9 then String backslash "t"
  else if Nat.eqb n 10 then String backslash "n"
  else if Nat.eqb n 13 then String backslash "r"
  else if Nat.ltb n 32 || Nat.eqb n 127
       then String backslash
              (String "x" (String (hex_digit (n / 16))
                             (String (hex_digit (n mod 16)) "")))
  else String c "".

Fixpoint repr_chars (quote : ascii) (s : string) : string :=
  match s with
  | EmptyString => ""
  | String c s' => repr_char quote c ++ repr_chars quote s'
  end%string.

Definition repr_str (s : string) : string :=
  let quote : ascii :=
    if contains_char squote s && negb (contains_char dquote s) then dquote else squote in
  (String quote (repr_chars quote s) ++ String quote "")%string.

(** [sep.join(l)]. *)
Fixpoint join (sep : string) (l : list string) : string :=
  match l with
  | [] => ""
  | [s] => s
  | s :: l' => s ++ sep ++ join sep l'
  end%string.

Definition repr_list (l : list string) : string :=
  ("[" ++ join ", " (map repr_str l) ++ "]")%string.

(** Truthiness of a list: [if l:]. *)
Definition truthy {A : Type} (l : list A) : bool :=
  match l with [] => false | _ :: _ => true end.

End Py.
Export Py.

Declare Scope result_scope.
Delimit Scope result_scope with result.
Notation "x <- r ;; k" := (Py.bind r (fun x => k))
  (at level 61, r at next level, right associativity) : result_scope.

(* ===================================================================== *)
(** ** Python dictionaries with string keys                               *)
(* ===================================================================== *)

(** A [dict] keeps its keys in insertion order ([list(d.keys())] shows it),
    so it is an association list.  Assigning to a key that is present
    replaces the value in place; a new key goes to the end. *)
Module PyDict.
Section Dict.
Context {V : Type}.

Definition dict : Type := list (string * V).

Definition empty : dict := [].

(** [d.get(k)] *)
Fixpoint get (k : string) (d : dict) : option V :=
  match d with
  | [] => None
  | (k', v) :: d' => if String.eqb k k' then Some v else get k d'
  end.

(** [k in d] *)
Definition mem (k : string) (d : dict) : bool :=
  match get k d with Some _ => true | None => false end.

(** [d.get(k, default)] *)
Definition get_default (k : string) (default : V) (d : dict) : V :=
  match get k d with Some v => v | None => default end.

(** [d[k]]: [KeyError] when the key is absent; [str] of a [KeyError] is
    the [repr] of the key. *)
Definition getitem (k : string) (d : dict) : result V :=
  match get k d with
  | Some v => Ok v
  | None => Raise (mk_exn KeyError (repr_str k))
  end.

(** [d[k] = v] *)
Fixpoint set (k : string) (v : V) (d : dict) : dict :=
  match d with
  | [] => [(k, v)]
  | (k', v') :: d' =>
      if String.eqb k k' then (k, v) :: d' else (k', v') :: set k v d'
  end.

(** [d.setdefault(k, v)], for its effect on [d]. *)
Definition setdefault (k : string) (v : V) (d : dict) : dict :=
  if mem k d then d else d ++ [(k, v)].

(** [list(d.keys())] *)
Definition keys (d : dict) : list string := map fst d.

(** [not d] *)
Definition is_empty (d : dict) : bool :=
  match d with [] => true | _ :: _ => false end.
End Dict.
Arguments dict V : clear implicits.
End PyDict.
Notation dict := (PyDict.dict).

(* ===================================================================== *)
(** ** The fitted objects the artifacts hold                              *)
(* ===================================================================== *)

(** One row per record: [predict] receives the scaled matrix. *)
Definition matrix : Type := list (list float).

(** The one-row frame [df[cols]]: the selected columns, in order. *)
Definition frame : Type := list (string * pyval).

(** A fitted scikit-learn estimator, by the two methods the service calls.
    Either may raise (a regressor has no [predict_proba]). *)
Record estimator : Type := mk_estimator {
  predict_ : matrix -> result (list scalar);
  predict_proba : matrix -> result (list (list float))
}.

(** A fitted scaler, by its [transform]. *)
Record scaler : Type := mk_scaler {
  scaler_transform : frame -> result matrix
}.

(** A fitted [LabelEncoder]: [classes_] holds the labels seen in training,
    and [transform] maps a label to its position in [classes_], raising
    [ValueError] on a label that is not there. *)
Record LabelEncoder : Type := mk_LabelEncoder {
  classes_ : list string
}.

Fixpoint position (s : string) (l : list string) : option Z :=
  match l with
  | [] => None
  | c :: l' =>
      if String.eqb s c then Some 0
      else match position s l' with
           | Some i => Some (i + 1)
           | None => None
           end
  end.

(** [s in encoder.classes_] *)
Definition in_classes (s : string) (enc : LabelEncoder) : bool :=
  existsb (String.eqb s) (classes_ enc).

Fixpoint transform (enc : LabelEncoder) (labels : list string) : result (list Z) :=
  match labels with
  | [] => Ok []
  | s :: rest =>
      match position s (classes_ enc) with
      | Some i => (codes <- transform enc rest ;; Ok (i :: codes))%result
      | None =>
          Raise (mk_exn ValueError
                   ("y contains previously unseen labels: " ++ repr_str s)%string)
      end
  end.

(* ===================================================================== *)
(** ** What the module reads from outside                                 *)
(* ===================================================================== *)

(** The file system as one load attempt sees it, the unpicklers at the
    types the module stores their results under, and two library
    conversions whose results the module only passes on. *)
Record environment : Type := mk_environment {
  (** [os.path.dirname(os.path.dirname(os.path.abspath(__file__)))] *)
  BASE_DIR : string;
  os_path_exists : string -> bool;
  os_listdir : string -> result (list string);
  load_estimator : string -> result estimator;
  load_scaler : string -> result scaler;
  load_encoders : string -> result (dict LabelEncoder);
  (** [open(path)] followed by [json.load] *)
  load_json : string -> result (dict (list string));
  (** [str(x)] of a value that is not a [str] *)
  str_other : pyval -> string;
  (** [Series.astype(int)] on a cell that is not a [bool] *)
  astype_int_other : pyval -> result pyval
}.

(** [os.path.join(a, b)] for a relative [b]. *)
Fixpoint ends_with_slash (s : string) : bool :=
  match s with
  | EmptyString => false
  | String c EmptyString => Ascii.eqb c "/"
  | String _ s' => ends_with_slash s'
  end.

Definition os_path_join (a b : string) : string :=
  match a with
  | EmptyString => b
  | _ => if ends_with_slash a then (a ++ b)%string else (a ++ "/" ++ b)%string
  end.

Definition MODEL_DIR (env : environment) : string :=
  os_path_join (BASE_DIR env) "models".

(* ===================================================================== *)
(** ** Module state and the monad of the handlers                         *)
(* ===================================================================== *)

(** The four module-level dictionaries. *)
Record globals : Type := mk_globals {
  models : dict estimator;
  scalers : dict scaler;
  encoders : dict (dict LabelEncoder);
  feature_names : dict (list string)
}.

(** The state at import, before the first load. *)
Definition initial_globals : globals :=
  mk_globals PyDict.empty PyDict.empty PyDict.empty PyDict.empty.

(** The process: its globals and the lines printed so far. *)
Record world : Type := mk_world {
  glob : globals;
  stdout : list string
}.

(** A computation that may mutate the world and may raise; what it
    mutated before raising stays mutated. *)
Definition M (A : Type) : Type := world -> result A * world.

Definition ret {A : Type} (a : A) : M A := fun w => (Ok a, w).

Definition raise {A : Type} (e : exn) : M A := fun w => (Raise e, w).

Definition mbind {A B : Type} (m : M A) (k : A -> M B) : M B :=
  fun w =>
    match m w with
    | (Ok a, w') => k a w'
    | (Raise e, w') => (Raise e, w')
    end.

(** [try: m  except Exception as e: handler e] *)
Definition try_except {A : Type} (m : M A) (handler : exn -> M A) : M A :=
  fun w =>
    match m w with
    | (Ok a, w') => (Ok a, w')
    | (Raise e, w') => handler e w'
    end.

Definition lift {A : Type} (r : result A) : M A := fun w => (r, w).

Definition read_globals : M globals := fun w => (Ok (glob w), w).

Definition update_globals (f : globals -> globals) : M unit :=
  fun w => (Ok tt, mk_world (f (glob w)) (stdout w)).

Definition print (line : string) : M unit :=
  fun w => (Ok tt, mk_world (glob w) (stdout w ++ [line])).

Declare Scope io_scope.
Delimit Scope io_scope with io.
Notation "x <- m ;; k" := (mbind m (fun x => k))
  (at level 61, m at next level, right associativity) : io_scope.
Notation "m ;; k" := (mbind m (fun _ => k))
  (at level 61, right associativity) : io_scope.

(** Assignments to the globals. *)
Definition set_model (task : string) (m : estimator) (g : globals) : globals :=
  mk_globals (PyDict.set task m (models g)) (scalers g) (encoders g) (feature_names g).

Definition set_scaler (task : string) (sc : scaler) (g : globals) : globals :=
  mk_globals (models g) (PyDict.set task sc (scalers g)) (encoders g) (feature_names g).

Definition set_encoders (task : string) (e : dict LabelEncoder) (g : globals) : globals :=
  mk_globals (models g) (scalers g) (PyDict.set task e (encoders g)) (feature_names g).

Definition set_feature_names (fn : dict (list string)) (g : globals) : globals :=
  mk_globals (models g) (scalers g) (encoders g) fn.

(* ===================================================================== *)
(** ** [load_models_and_processors]                                       *)
(* ===================================================================== *)

Definition expected : list string :=
  [ "best_regression_model_linear.pkl";
    "best_classification_model_logistic.pkl";
    "regression_scaler.pkl";
    "classification_scaler.pkl";
    "regression_encoders.pkl";
    "classification_encoders.pkl" ]%string.

(** [[f for f in expected if not os.path.exists(os.path.join(MODEL_DIR, f))]] *)
Definition missing_files (env : environment) : list string :=
  filter (fun f => negb (os_path_exists env (os_path_join (MODEL_DIR env) f))) expected.

(** The body of the [try]. *)
Definition load_body (env : environment) : M bool :=
  (print "Starting model loading process..." ;;
   print ("MODEL_DIR: " ++ MODEL_DIR env) ;;
   listing <- (if os_path_exists env (MODEL_DIR env)
               then (files <- lift (os_listdir env (MODEL_DIR env)) ;;
                     ret (repr_list files))
               else ret "Directory not found"%string) ;;
   print ("Files in MODEL_DIR: " ++ listing) ;;
   let missing := missing_files env in
   if truthy missing then
     print ("Missing model files in " ++ MODEL_DIR env ++ "/: " ++ repr_list missing) ;;
     ret false
   else
     m <- lift (load_estimator env
                  (os_path_join (MODEL_DIR env) "best_regression_model_linear.pkl")) ;;
     update_globals (set_model "regression" m) ;;
     m <- lift (load_estimator env
                  (os_path_join (MODEL_DIR env) "best_classification_model_logistic.pkl")) ;;
     update_globals (set_model "classification" m) ;;
     sc <- lift (load_scaler env (os_path_join (MODEL_DIR env) "regression_scaler.pkl")) ;;
     update_globals (set_scaler "regression" sc) ;;
     sc <- lift (load_scaler env (os_path_join (MODEL_DIR env) "classification_scaler.pkl")) ;;
     update_globals (set_scaler "classification" sc) ;;
     e <- lift (load_encoders env (os_path_join (MODEL_DIR env) "regression_encoders.pkl")) ;;
     update_globals (set_encoders "regression" e) ;;
     e <- lift (load_encoders env
                  (os_path_join (MODEL_DIR env) "classification_encoders.pkl")) ;;
     update_globals (set_encoders "classification" e) ;;
     let feature_file := os_path_join (BASE_DIR env) "feature_names.json" in
     fn <- lift (load_json env feature_file) ;;
     update_globals (set_feature_names fn) ;;
     print "✅ All models and processors loaded successfully!" ;;
     ret true)%io%string.

(** The function: the [except Exception] clause prints the error and
    returns [False] ([traceback.print_exc] writes to stderr, which the
    world does not record). *)
Definition load_models_and_processors (env : environment) : M bool :=
  try_except (load_body env)
    (fun e =>
       (print ("Error loading models/processors: " ++ exn_str e)%string ;;
        ret false)%io).

(* ===================================================================== *)
(** ** [preprocess_input_data]                                            *)
(* ===================================================================== *)

(** A site record: the JSON object of the request. *)
Definition record : Type := dict pyval.

(** [str(x)] *)
Definition py_str (env : environment) (x : pyval) : string :=
  match x with
  | VStr s => s
  | _ => str_other env x
  end.

(** The lambda applied to a categorical column:
    [encoder.transform([str(x)])[0] if str(x) in encoder.classes_ else 0] *)
Definition encode_value (env : environment) (encoder : LabelEncoder) (x : pyval)
  : result pyval :=
  if in_classes (py_str env x) encoder
  then (codes <- transform encoder [py_str env x] ;;
        c <- array_index codes 0 ;;
        Ok (VInt c))%result
  else Ok (VInt 0).

(** One iteration of the loop over the categorical columns. *)
Definition encode_column (env : environment) (task_encoders : dict LabelEncoder)
    (feat : string) (df : record) : result record :=
  if PyDict.mem feat df && PyDict.mem feat task_encoders
  then (encoder <- PyDict.getitem feat task_encoders ;;
        x <- PyDict.getitem feat df ;;
        v <- encode_value env encoder x ;;
        Ok (PyDict.set feat v df))%result
  else Ok df.

(** [for x in l: s = f x s], stopping at the first exception. *)
Fixpoint for_each {A S : Type} (f : A -> S -> result S) (l : list A) (s : S)
  : result S :=
  match l with
  | [] => Ok s
  | a :: l' => (s' <- f a s ;; for_each f l' s')%result
  end.

Definition categorical : list string :=
  [ "Vegetation_Type"; "Soil_Type"; "Country" ]%string.

Definition encode_categoricals (env : environment) (task_encoders : dict LabelEncoder)
    (df : record) : result record :=
  for_each (encode_column env task_encoders) categorical df.

(** [Series.astype(int)] on the one cell of the column. *)
Definition astype_int (env : environment) (x : pyval) : result pyval :=
  match x with
  | VBool b => Ok (VInt (if b then 1 else 0))
  | _ => astype_int_other env x
  end.

Definition coerce_protected (env : environment) (df : record) : result record :=
  if PyDict.mem "Protected_Area_Status" df
  then (x <- PyDict.getitem "Protected_Area_Status" df ;;
        v <- astype_int env x ;;
        Ok (PyDict.set "Protected_Area_Status" v df))%result
  else Ok df.

(** [df[cols]] *)
Fixpoint select (df : record) (cols : list string) : result frame :=
  match cols with
  | [] => Ok []
  | c :: cols' =>
      (v <- PyDict.getitem c df ;;
       rest <- select df cols' ;;
       Ok ((c, v) :: rest))%result
  end.

Definition features_key (task_type : string) : string :=
  (task_type ++ "_features")%string.

(** Lines 100 to 110: the boolean column, then selection and scaling. *)
Definition select_and_scale (env : environment) (g : globals) (task_type : string)
    (df : record) : result matrix :=
  (df <- coerce_protected env df ;;
   cols <- PyDict.getitem (features_key task_type) (feature_names g) ;;
   let missing := filter (fun c => negb (PyDict.mem c df)) cols in
   if truthy missing
   then Raise (mk_exn Exception ("Missing input features: " ++ repr_list missing)%string)
   else
     features <- select df cols ;;
     sc <- PyDict.getitem task_type (scalers g) ;;
     scaler_transform sc features)%result.

(** The body of the [try]. *)
Definition preprocess_body (env : environment) (g : globals) (data : record)
    (task_type : string) : result matrix :=
  if PyDict.is_empty (models g)
  then Raise (mk_exn Exception "Models not loaded")
  else if negb (PyDict.mem task_type (encoders g))
          || negb (PyDict.mem task_type (scalers g))
          || negb (PyDict.mem (features_key task_type) (feature_names g))
  then Raise (mk_exn Exception
                ("Missing encoders/scalers/features for task '" ++ task_type ++ "'")%string)
  else
    (let df := data in
     task_encoders <- PyDict.getitem task_type (encoders g) ;;
     df <- encode_categoricals env task_encoders df ;;
     select_and_scale env g task_type df)%result.

Definition preprocessing_prefix : string := "Error preprocessing data: ".

(** The function: the [except Exception as e] clause raises a new
    [Exception] whose message is the prefix followed by [str(e)]. *)
Definition preprocess_input_data (env : environment) (g : globals) (data : record)
    (task_type : string) : result matrix :=
  match preprocess_body env g data task_type with
  | Ok X => Ok X
  | Raise e => Raise (mk_exn Exception (preprocessing_prefix ++ exn_str e)%string)
  end.

(* ===================================================================== *)
(** ** [/api/predict]                                                     *)
(* ===================================================================== *)

(** What a view returns: [jsonify(body), status]. *)
Record response : Type := mk_response {
  status : Z;
  body : dict pyval
}.

(** [jsonify({'error': msg, 'success': False}), code] *)
Definition error_response (msg : string) (code : Z) : response :=
  mk_response code [ ("error", VStr msg); ("success", VBool false) ]%string.

Definition required : list string :=
  [ "Latitude"; "Longitude"; "Vegetation_Type"; "Biodiversity_Index";
    "Protected_Area_Status"; "Elevation_m"; "Slope_Degree"; "Soil_Type";
    "Air_Quality_Index"; "Average_Temperature_C"; "Tourist_Attractions";
    "Accessibility_Score"; "Tourist_Capacity_Limit" ]%string.

(** [[f for f in required if f not in input_data]] *)
Definition missing_fields (input_data : record) : list string :=
  filter (fun f => negb (PyDict.mem f input_data)) required.

(** The [defaults] dictionary; building it multiplies the capacity limit. *)
Definition defaults (input_data : record) : result (dict pyval) :=
  (let temperature := PyDict.get_default "Average_Temperature_C" (VFloat 20.0) input_data in
   capacity <- PyDict.getitem "Tourist_Capacity_Limit" input_data ;;
   count <- mul_float capacity 0.6 ;;
   Ok [ ("Country", VStr "USA");
        ("Flood_Risk_Index", VFloat 0.3);
        ("Drought_Risk_Index", VFloat 0.3);
        ("Temperature_C", temperature);
        ("Annual_Rainfall_mm", VFloat 1000.0);
        ("Soil_Erosion_Risk", VFloat 0.2);
        ("Current_Tourist_Count", count);
        ("Human_Activity_Index", VFloat 0.4);
        ("Conservation_Investment_USD", VFloat 100000.0);
        ("Climate_Risk_Score", VFloat 0.4) ])%result%string%float.

(** [for k, v in defaults.items(): input_data.setdefault(k, v)] *)
Definition setdefaults (ds : dict pyval) (input_data : record) : record :=
  fold_left (fun d kv => PyDict.setdefault (fst kv) (snd kv) d) ds input_data.

(** Default injection: lines 144 to 154. *)
Definition inject_defaults (input_data : record) : result record :=
  (ds <- defaults input_data ;; Ok (setdefaults ds input_data))%result.

Definition cats : list string := [ "Low"; "Medium"; "High" ]%string.

(** [cats[cls] if cls < len(cats) else 'Unknown'] *)
Definition flood_category (cls : scalar) : result string :=
  if scalar_lt_int cls (len cats)
  then list_index_scalar cats cls
  else Ok "Unknown"%string.

(** [{cats[i]: float(proba[i]) for i in range(len(cats))}] *)
Definition risk_probabilities (proba : list float) : result (dict pyval) :=
  for_each
    (fun i probs =>
       (label <- list_index cats i ;;
        p <- array_index proba i ;;
        Ok (PyDict.set label (VFloat p) probs))%result)
    (range (len cats)) PyDict.empty.

(** ['Low' if score<0.33 else 'Medium' if score<0.67 else 'High'] *)
Definition risk_level (score : scalar) : string :=
  if scalar_lt_float score 0.33 then "Low"
  else if scalar_lt_float score 0.67 then "Medium"
  else "High".

(** Lines 163 to 174: the response built from the three model outputs. *)
Definition assemble (score cls : scalar) (proba : list float) : result response :=
  (flood_cat <- flood_category cls ;;
   probs <- risk_probabilities proba ;;
   Ok (mk_response 200
         [ ("success", VBool true);
           ("climate_risk_score", VFloat (float_of_scalar score));
           ("flood_risk_category", VStr flood_cat);
           ("risk_probabilities", VDict probs);
           ("risk_level", VStr (risk_level score)) ]))%result%string.

(** Lines 156 to 161: both preprocessing passes and the three model calls. *)
Definition run_models (env : environment) (g : globals) (input_data : record)
  : result (scalar * scalar * list float) :=
  (reg_X <- preprocess_input_data env g input_data "regression" ;;
   cls_X <- preprocess_input_data env g input_data "classification" ;;
   regressor <- PyDict.getitem "regression" (models g) ;;
   scores <- predict_ regressor reg_X ;;
   score <- array_index scores 0 ;;
   classifier <- PyDict.getitem "classification" (models g) ;;
   classes <- predict_ classifier cls_X ;;
   cls <- array_index classes 0 ;;
   classifier <- PyDict.getitem "classification" (models g) ;;
   probas <- predict_proba classifier cls_X ;;
   proba <- array_index probas 0 ;;
   Ok (score, cls, proba))%result%string.

(** What [request.json] does: it raises (no JSON content type, or a body
    that does not parse), or yields [None], or yields the parsed JSON
    object.  Bodies that parse to something other than an object are not
    records and are left out. *)
Definition request : Type := result (option record).

(** [request.json or {}] *)
Definition input_data_of (json : option record) : record :=
  match json with
  | Some r => r
  | None => PyDict.empty
  end.

(** Lines 126 to 127: the lazy load. *)
Definition ensure_loaded (env : environment) : M unit :=
  (g <- read_globals ;;
   if PyDict.is_empty (models g)
   then (_ <- load_models_and_processors env ;; ret tt)
   else ret tt)%io.

(** From validation on: lines 132 to 174. *)
Definition handle (env : environment) (g : globals) (req : request) : result response :=
  (json <- req ;;
   let input_data := input_data_of json in
   let missing := missing_fields input_data in
   if truthy missing
   then Ok (error_response ("Missing fields: " ++ repr_list missing) 400)
   else
     input_data <- inject_defaults input_data ;;
     outputs <- run_models env g input_data ;;
     let '(score, cls, proba) := outputs in
     assemble score cls proba)%result%string.

(** The body of the [try]. *)
Definition predict_body (env : environment) (req : request) : M response :=
  (ensure_loaded env ;;
   g <- read_globals ;;
   if PyDict.is_empty (models g)
   then ret (error_response "Models not loaded" 500)
   else lift (handle env g req))%io.

(** The view: [except Exception as e] answers 500 with [str(e)]. *)
Definition predict (env : environment) (req : request) : M response :=
  try_except (predict_body env req)
    (fun e => ret (error_response (exn_str e) 500)).

(* ===================================================================== *)
(** ** [/api/health]                                                      *)
(* ===================================================================== *)

Definition str_list (l : list string) : pyval := VList (map VStr l).

Definition health_check : M response :=
  (g <- read_globals ;;
   let verdict :=
     if negb (PyDict.is_empty (models g)) && negb (PyDict.is_empty (encoders g))
        && negb (PyDict.is_empty (scalers g)) && negb (PyDict.is_empty (feature_names g))
     then "healthy" else "unhealthy" in
   ret (mk_response 200
          [ ("status", VStr verdict);
            ("models_loaded", VBool (negb (PyDict.is_empty (models g))));
            ("available_models", str_list (PyDict.keys (models g)));
            ("encoders_loaded", VBool (negb (PyDict.is_empty (encoders g))));
            ("available_encoders", str_list (PyDict.keys (encoders g)));
            ("scalers_loaded", VBool (negb (PyDict.is_empty (scalers g))));
            ("available_scalers", str_list (PyDict.keys (scalers g)));
            ("feature_names_loaded", VBool (negb (PyDict.is_empty (feature_names g))));
            ("available_feature_sets", str_list (PyDict.keys (feature_names g))) ]))%io%string.

(* ===================================================================== *)
(** ** Module import                                                      *)
(* ===================================================================== *)

(** Lines 202 to 204: at import the four dictionaries are empty and the
    module tries one load. *)
Definition startup (env : environment) : world :=
  snd (ensure_loaded env (mk_world initial_globals [])).

(* ===================================================================== *)
(** ** A concrete deployment, for running the model                       *)
(* ===================================================================== *)

Module Sample.

Definition fresh : world := mk_world initial_globals [].

(** A regressor that always predicts 0.5 and a classifier that always
    predicts class 1 with probabilities 0.1, 0.7, 0.2. *)
Definition regressor : estimator :=
  mk_estimator
    (fun X => Ok (map (fun _ => SFloat 0.5) X))
    (fun _ => Raise (mk_exn AttributeError
                       "'LinearRegression' object has no attribute 'predict_proba'")).

Definition classifier : estimator :=
  mk_estimator
    (fun X => Ok (map (fun _ => SInt 1) X))
    (fun X => Ok (map (fun _ => [0.1; 0.7; 0.2]%float) X)).

Definition cell (v : pyval) : float :=
  match v with
  | VFloat f => f
  | VInt z => float_of_Z z
  | VBool b => if b then 1%float else 0%float
  | _ => 0%float
  end.

Definition unit_scaler : scaler :=
  mk_scaler (fun fr => Ok [map (fun kv => cell (snd kv)) fr]).

Definition task_encoders : dict LabelEncoder :=
  [ ("Vegetation_Type", mk_LabelEncoder ["Forest"; "Grassland"; "Wetland"]);
    ("Soil_Type", mk_LabelEncoder ["Clay"; "Loam"; "Sandy"]);
    ("Country", mk_LabelEncoder ["India"; "USA"]) ]%string.

Definition columns : list string :=
  [ "Latitude"; "Longitude"; "Vegetation_Type"; "Biodiversity_Index";
    "Protected_Area_Status"; "Elevation_m"; "Soil_Type"; "Country";
    "Current_Tourist_Count"; "Temperature_C" ]%string.

Definition features : dict (list string) :=
  [ ("regression_features", columns); ("classification_features", columns) ]%string.

(** The state after a successful load. *)
Definition loaded : globals :=
  mk_globals
    [ ("regression", regressor); ("classification", classifier) ]%string
    [ ("regression", unit_scaler); ("classification", unit_scaler) ]%string
    [ ("regression", task_encoders); ("classification", task_encoders) ]%string
    features.

Definition warm : world := mk_world loaded [].

Definition render (v : pyval) : string :=
  match v with
  | VNone => "None"
  | VBool true => "True"
  | VBool false => "False"
  | VInt z => str_int z
  | _ => "?"
  end.

Definition to_int (v : pyval) : result pyval :=
  match v with
  | VInt z => Ok (VInt z)
  | _ => Raise (mk_exn TypeError "int() argument must be a string or a real number")
  end.

(** A deployment with every artifact in place... *)
Definition env : environment :=
  mk_environment "/var/task"
    (fun _ => true)
    (fun _ => Ok ("feature_names.json" :: expected)%string)
    (fun path => if String.eqb path "/var/task/models/best_regression_model_linear.pkl"
                 then Ok regressor else Ok classifier)
    (fun _ => Ok unit_scaler)
    (fun _ => Ok task_encoders)
    (fun _ => Ok features)
    render to_int.

(** ... and one whose [regression_scaler.pkl] was deleted. *)
Definition env_without_scaler : environment :=
  mk_environment "/var/task"
    (fun path => negb (String.eqb path "/var/task/models/regression_scaler.pkl"))
    (os_listdir env) (load_estimator env) (load_scaler env) (load_encoders env)
    (load_json env) render to_int.

(** ... and one whose classification model is there but does not
    unpickle. *)
Definition env_corrupt_classifier : environment :=
  mk_environment "/var/task"
    (os_path_exists env) (os_listdir env)
    (fun path => if String.eqb path "/var/task/models/best_regression_model_linear.pkl"
                 then Ok regressor
                 else Raise (mk_exn ValueError "unsupported pickle protocol"))
    (load_scaler env) (load_encoders env) (load_json env) render to_int.

(** A request carrying the thirteen required fields and nothing else. *)
Definition site : record :=
  [ ("Latitude", VFloat 12.5); ("Longitude", VFloat 77.25);
    ("Vegetation_Type", VStr "Forest"); ("Biodiversity_Index", VFloat 0.75);
    ("Protected_Area_Status", VBool true); ("Elevation_m", VInt 900);
    ("Slope_Degree", VFloat 4.5); ("Soil_Type", VStr "Loam");
    ("Air_Quality_Index", VInt 42); ("Average_Temperature_C", VFloat 24.5);
    ("Tourist_Attractions", VInt 7); ("Accessibility_Score", VFloat 0.5);
    ("Tourist_Capacity_Limit", VInt 500) ]%string%float.

(** The same site without its biodiversity index and soil type. *)
Definition partial_site : record :=
  [ ("Latitude", VFloat 12.5); ("Longitude", VFloat 77.25);
    ("Vegetation_Type", VStr "Forest");
    ("Protected_Area_Status", VBool true); ("Elevation_m", VInt 900);
    ("Slope_Degree", VFloat 4.5);
    ("Air_Quality_Index", VInt 42); ("Average_Temperature_C", VFloat 24.5);
    ("Tourist_Attractions", VInt 7); ("Accessibility_Score", VFloat 0.5);
    ("Tourist_Capacity_Limit", VInt 500) ]%string%float.

(** A classifier fitted on two classes only, and one whose labels are
    -1, 0 and 1. *)
Definition binary_classifier : estimator :=
  mk_estimator
    (fun X => Ok (map (fun _ => SInt 1) X))
    (fun X => Ok (map (fun _ => [0.4; 0.6]%float) X)).

Definition signed_classifier : estimator :=
  mk_estimator
    (fun X => Ok (map (fun _ => SInt (-1)) X))
    (fun X => Ok (map (fun _ => [0.7; 0.2; 0.1]%float) X)).

Definition with_classifier (c : estimator) : world :=
  mk_world (set_model "classification" c loaded) [].

(** The same site with its capacity limit sent as text. *)
Definition text_capacity_site : record :=
  PyDict.set "Tourist_Capacity_Limit" (VStr "500") site.

(** Every required key present, every value [null]. *)
Definition null_site : record := map (fun f => (f, VNone)) required.

(** The site with a field no model lists, and a caller who sends two of
    the optional fields. *)
Definition annotated_site : record :=
  site ++ [ ("Notes", VStr "visited in May") ]%string.

Definition site_with_country : record :=
  site ++ [ ("Country", VStr "India"); ("Flood_Risk_Index", VFloat 0.9) ]%string%float.

(** A feature-name document that parses to an empty object. *)
Definition env_empty_features : environment :=
  mk_environment "/var/task"
    (os_path_exists env) (os_listdir env) (load_estimator env) (load_scaler env)
    (load_encoders env) (fun _ => Ok PyDict.empty) render to_int.


End Sample.

(* ===================================================================== *)
(** ** Vocabulary of the statements                                       *)
(* ===================================================================== *)

(** The ten optional fields, in the order of the [defaults] dictionary. *)
Definition optional : list string :=
  [ "Country"; "Flood_Risk_Index"; "Drought_Risk_Index"; "Temperature_C";
    "Annual_Rainfall_mm"; "Soil_Erosion_Risk"; "Current_Tourist_Count";
    "Human_Activity_Index"; "Conservation_Investment_USD"; "Climate_Risk_Score" ]%string.

(** The float a value stands for in arithmetic, when it is a number: a
    float, a bool, or an int whose nearest binary64 is finite. *)
Definition as_float (v : pyval) : option float :=
  match v with
  | VFloat f => Some f
  | VBool b => Some (if b then 1 else 0)%float
  | VInt z => if PrimFloat.is_infinity (float_of_Z z) then None else Some (float_of_Z z)
  | _ => None
  end.

(** The rational a finite binary64 stands for: sign, mantissa [m] and
    exponent [e] give plus or minus [m * 2^e]. *)
Definition Q_of_finite (s : bool) (m : positive) (e : Z) : Q :=
  let z := if s then Zneg m else Zpos m in
  if 0 <=? e then inject_Z (z * 2 ^ e) else z # Z.to_pos (2 ^ (- e)).

(** The exact value of a float; infinities and NaN have none. *)
Definition float_value (x : float) : option Q :=
  match Prim2SF x with
  | S754_zero _ => Some 0%Q
  | S754_finite s m e => Some (Q_of_finite s m e)
  | _ => None
  end.

(** The order of the three risk levels. *)
Definition level_rank (label : string) : Z :=
  if String.eqb label "Low" then 0
  else if String.eqb label "Medium" then 1
  else 2.

(** A plain name between apostrophes. *)
Definition quoted (s : string) : string := ("'" ++ s ++ "'")%string.

(** The code a fitted encoder gives a label: its position among the
    classes, and 0 for a label it has not seen. *)
Definition code_of (encoder : LabelEncoder) (s : string) : Z :=
  match position s (classes_ encoder) with
  | Some c => c
  | None => 0
  end.

(** What the encoding loop leaves in a categorical column [c]: the code of
    [str] of the value when the column is there and the task has an
    encoder for it, the cell as it was otherwise. *)
Definition encoded_cell (env : environment) (task_encoders : dict LabelEncoder)
    (c : string) (cell : option pyval) : option pyval :=
  match cell, PyDict.get c task_encoders with
  | Some x, Some encoder => Some (VInt (code_of encoder (py_str env x)))
  | _, _ => cell
  end.

(** The cell preprocessing hands on for column [c] of a record whose
    protected-area status is a boolean or absent: a categorical column is
    encoded, the protected-area column holds 0 or 1, any other column its
    value as sent. *)
Definition prepared_cell (env : environment) (task_encoders : dict LabelEncoder)
    (data : record) (c : string) : option pyval :=
  let cell :=
    if existsb (String.eqb c) categorical
    then encoded_cell env task_encoders c (PyDict.get c data)
    else PyDict.get c data in
  if String.eqb c "Protected_Area_Status"
  then match cell with
       | Some (VBool b) => Some (VInt (if b then 1 else 0))
       | _ => cell
       end
  else cell.

(* ===================================================================== *)
(** * Properties                                                          *)
(* ===================================================================== *)

(** ** Dictionaries *)

Section DictFacts.
Context {V : Type}.
Implicit Types (d : dict V) (k : string) (v : V).

Lemma mem_true_get k d : PyDict.mem k d = true <-> exists v, PyDict.get k d = Some v.
Proof.
  unfold PyDict.mem. destruct (PyDict.get k d) as [v|].
  - split; [eauto | reflexivity].
  - split; [discriminate | intros [v H]; discriminate].
Qed.

Lemma mem_false_get k d : PyDict.mem k d = false <-> PyDict.get k d = None.
Proof.
  unfold PyDict.mem. destruct (PyDict.get k d); split; congruence.
Qed.

Lemma get_set_same k v d : PyDict.get k (PyDict.set k v d) = Some v.
Proof.
  induction d as [|[k' v'] d IH]; simpl.
  - now rewrite String.eqb_refl.
  - destruct (String.eqb k k') eqn:E; simpl; rewrite ?String.eqb_refl, ?E; auto.
Qed.

Lemma get_set_other k k' v d :
  k <> k' -> PyDict.get k (PyDict.set k' v d) = PyDict.get k d.
Proof.
  intros Hne. apply String.eqb_neq in Hne.
  induction d as [|[k0 v0] d IH]; simpl.
  - now rewrite Hne.
  - destruct (String.eqb k' k0) eqn:E; simpl.
    + apply String.eqb_eq in E. subst k0. now rewrite Hne.
    + destruct (String.eqb k k0); auto.
Qed.

Lemma get_app k d d' :
  PyDict.get k (d ++ d') =
  match PyDict.get k d with Some v => Some v | None => PyDict.get k d' end.
Proof.
  induction d as [|[k0 v0] d IH]; simpl; auto.
  destruct (String.eqb k k0); auto.
Qed.

Lemma mem_app k d d' : PyDict.mem k (d ++ d') = PyDict.mem k d || PyDict.mem k d'.
Proof.
  unfold PyDict.mem. rewrite get_app. destruct (PyDict.get k d); reflexivity.
Qed.

Lemma mem_keys k d : PyDict.mem k d = true <-> In k (PyDict.keys d).
Proof.
  unfold PyDict.mem, PyDict.keys.
  induction d as [|[k0 v0] d IH]; simpl.
  - split; [discriminate | tauto].
  - destruct (String.eqb k k0) eqn:E.
    + apply String.eqb_eq in E. subst. tauto.
    + apply String.eqb_neq in E. rewrite IH. split; [tauto | intros [H|H]; congruence].
Qed.

Lemma setdefault_present k v d : PyDict.mem k d = true -> PyDict.setdefault k v d = d.
Proof. unfold PyDict.setdefault. now intros ->. Qed.

Lemma setdefault_absent k v d :
  PyDict.mem k d = false -> PyDict.setdefault k v d = d ++ [(k, v)].
Proof. unfold PyDict.setdefault. now intros ->. Qed.

Lemma is_empty_false d : PyDict.is_empty d = false <-> d <> [].
Proof. destruct d; simpl; split; congruence. Qed.
End DictFacts.

Lemma truthy_true {A : Type} (l : list A) : truthy l = true <-> l <> [].
Proof. destruct l; simpl; split; congruence. Qed.

Lemma truthy_false {A : Type} (l : list A) : truthy l = false <-> l = [].
Proof. destruct l; simpl; split; congruence. Qed.

(** ** The loader *)

Lemma missing_files_spec env f :
  In f (missing_files env) <->
  In f expected /\ os_path_exists env (os_path_join (MODEL_DIR env) f) = false.
Proof.
  unfold missing_files. rewrite filter_In, negb_true_iff. reflexivity.
Qed.

(** A load attempt that finds a file missing stops before the first
    assignment, whether or not listing the directory raised. *)
Lemma load_aborts_on_missing env w :
  missing_files env <> [] ->
  fst (load_models_and_processors env w) = Ok false /\
  glob (snd (load_models_and_processors env w)) = glob w.
Proof.
  intros Hmiss. apply truthy_true in Hmiss.
  unfold load_models_and_processors, try_except, load_body, mbind, print, lift, ret.
  simpl.
  destruct (os_path_exists env (MODEL_DIR env)).
  - destruct (os_listdir env (MODEL_DIR env)) as [files|e]; simpl.
    + rewrite Hmiss. simpl. auto.
    + auto.
  - simpl. rewrite Hmiss. simpl. auto.
Qed.

(** C3. Whenever at least one of the six expected artifact files is absent,
    [load_models_and_processors] returns [False] (it does not raise) and
    the four module-level dictionaries are exactly what they were before
    the call. *)
Theorem load_missing_artifact_leaves_maps env w f :
  In f expected ->
  os_path_exists env (os_path_join (MODEL_DIR env) f) = false ->
  fst (load_models_and_processors env w) = Ok false /\
  models (glob (snd (load_models_and_processors env w))) = models (glob w) /\
  scalers (glob (snd (load_models_and_processors env w))) = scalers (glob w) /\
  encoders (glob (snd (load_models_and_processors env w))) = encoders (glob w) /\
  feature_names (glob (snd (load_models_and_processors env w))) = feature_names (glob w).
Proof.
  intros Hin Hex.
  assert (Hmiss : missing_files env <> []).
  { intros Hnil. assert (H : In f (missing_files env)) by (apply missing_files_spec; auto).
    rewrite Hnil in H. exact H. }
  destruct (load_aborts_on_missing env w Hmiss) as [Hret Hglob].
  rewrite Hglob. auto.
Qed.

Lemma load_missing_artifact_leaves_maps_witness :
  fst (load_models_and_processors Sample.env_without_scaler Sample.warm) = Ok false /\
  models (glob (snd (load_models_and_processors Sample.env_without_scaler Sample.warm)))
    = models Sample.loaded /\
  scalers (glob (snd (load_models_and_processors Sample.env_without_scaler Sample.warm)))
    = scalers Sample.loaded /\
  encoders (glob (snd (load_models_and_processors Sample.env_without_scaler Sample.warm)))
    = encoders Sample.loaded /\
  feature_names (glob (snd (load_models_and_processors Sample.env_without_scaler Sample.warm)))
    = feature_names Sample.loaded.
Proof.
  apply (load_missing_artifact_leaves_maps Sample.env_without_scaler Sample.warm
           "regression_scaler.pkl").
  - simpl. tauto.
  - reflexivity.
Defined.

Lemma load_never_raises env w :
  exists ok, fst (load_models_and_processors env w) = Ok ok.
Proof.
  unfold load_models_and_processors, try_except.
  destruct (load_body env w) as [[ok|e] w']; simpl; eauto.
Qed.

Lemma ensure_loaded_returns env w : fst (ensure_loaded env w) = Ok tt.
Proof.
  unfold ensure_loaded, mbind, read_globals, ret.
  destruct (PyDict.is_empty (models (glob w))); [|reflexivity].
  destruct (load_never_raises env w) as [ok Hok].
  destruct (load_models_and_processors env w) as [[ok'|e] w']; simpl in *.
  - reflexivity.
  - discriminate.
Qed.

(** ** The health endpoint *)

(** C7. For every state of the four dictionaries the health view answers
    200 with status healthy exactly when all four are non-empty and
    unhealthy otherwise, a loaded flag per store equal to its
    non-emptiness, the list of each store's keys in order, and it leaves
    the world (the four dictionaries included) as it found it. *)
Theorem health_check_reports_cached_state (w : world) :
  let g := glob w in
  exists resp,
    health_check w = (Ok resp, w) /\
    status resp = 200 /\
    (PyDict.get "status" (body resp) = Some (VStr "healthy") <->
       models g <> [] /\ encoders g <> [] /\ scalers g <> [] /\ feature_names g <> []) /\
    (PyDict.get "status" (body resp) = Some (VStr "unhealthy") <->
       models g = [] \/ encoders g = [] \/ scalers g = [] \/ feature_names g = []) /\
    PyDict.get "models_loaded" (body resp)
      = Some (VBool (negb (PyDict.is_empty (models g)))) /\
    PyDict.get "available_models" (body resp)
      = Some (VList (map VStr (PyDict.keys (models g)))) /\
    PyDict.get "encoders_loaded" (body resp)
      = Some (VBool (negb (PyDict.is_empty (encoders g)))) /\
    PyDict.get "available_encoders" (body resp)
      = Some (VList (map VStr (PyDict.keys (encoders g)))) /\
    PyDict.get "scalers_loaded" (body resp)
      = Some (VBool (negb (PyDict.is_empty (scalers g)))) /\
    PyDict.get "available_scalers" (body resp)
      = Some (VList (map VStr (PyDict.keys (scalers g)))) /\
    PyDict.get "feature_names_loaded" (body resp)
      = Some (VBool (negb (PyDict.is_empty (feature_names g)))) /\
    PyDict.get "available_feature_sets" (body resp)
      = Some (VList (map VStr (PyDict.keys (feature_names g)))).
Proof.
  destruct w as [[m s e fn] out]. cbn zeta.
  eexists. split; [reflexivity|]. cbn -[String.eqb].
  split; [reflexivity|].
  split; [|split; [|repeat split; reflexivity]].
  - destruct m, e, s, fn; cbn; split;
      solve [ discriminate | congruence | intros (? & ? & ? & ?); congruence
            | intros _; repeat split; discriminate ].
  - destruct m, e, s, fn; cbn; split;
      solve [ discriminate | congruence | intros [?|[?|[?|?]]]; discriminate
            | intros _; auto ].
Qed.

(** ** Required-field validation *)

Lemma missing_fields_spec (r : record) (f : string) :
  In f (missing_fields r) <-> In f required /\ PyDict.mem f r = false.
Proof.
  unfold missing_fields. rewrite filter_In, negb_true_iff. reflexivity.
Qed.

Lemma missing_fields_nil (r : record) :
  missing_fields r = [] <-> forall f, In f required -> PyDict.mem f r = true.
Proof.
  split.
  - intros Hnil f Hin. destruct (PyDict.mem f r) eqn:E; [reflexivity|].
    assert (H : In f (missing_fields r)) by (apply missing_fields_spec; auto).
    rewrite Hnil in H. destruct H.
  - intros Hall. destruct (missing_fields r) as [|f l] eqn:E; [reflexivity|].
    assert (H : In f (missing_fields r)) by (rewrite E; left; reflexivity).
    apply missing_fields_spec in H. destruct H as [Hin Hmem].
    rewrite (Hall f Hin) in Hmem. discriminate.
Qed.

(** The names of [required] are plain: their [repr] is the name between
    apostrophes. *)
Lemma repr_required f : In f required -> repr_str f = quoted f.
Proof.
  unfold required. simpl.
  intros H; repeat (destruct H as [<-|H]; [reflexivity|]); destruct H.
Qed.

Lemma repr_list_missing_fields (r : record) :
  repr_list (missing_fields r)
  = ("[" ++ join ", " (map quoted (missing_fields r)) ++ "]")%string.
Proof.
  unfold repr_list. f_equal. f_equal. f_equal.
  apply map_ext_in. intros f Hf. apply repr_required.
  apply missing_fields_spec in Hf. tauto.
Qed.

(** ** The predict view, by the state the lazy load leaves *)

Lemma predict_unloaded env req w :
  PyDict.is_empty (models (glob (snd (ensure_loaded env w)))) = true ->
  predict env req w
  = (Ok (error_response "Models not loaded" 500), snd (ensure_loaded env w)).
Proof.
  intros Hempty. unfold predict, try_except, predict_body, mbind, read_globals.
  pose proof (ensure_loaded_returns env w) as Hret.
  destruct (ensure_loaded env w) as [[[]|e] w']; simpl in *; [|discriminate].
  rewrite Hempty. reflexivity.
Qed.

Lemma predict_loaded env req w :
  PyDict.is_empty (models (glob (snd (ensure_loaded env w)))) = false ->
  predict env req w
  = (match handle env (glob (snd (ensure_loaded env w))) req with
     | Ok resp => Ok resp
     | Raise e => Ok (error_response (exn_str e) 500)
     end, snd (ensure_loaded env w)).
Proof.
  intros Hfull. unfold predict, try_except, predict_body, mbind, read_globals, lift, ret.
  pose proof (ensure_loaded_returns env w) as Hret.
  destruct (ensure_loaded env w) as [[[]|e] w']; simpl in *; [|discriminate].
  rewrite Hfull.
  destruct (handle env (glob w') req); reflexivity.
Qed.

Lemma handle_missing env g (r : record) :
  missing_fields r <> [] ->
  handle env g (Ok (Some r))
  = Ok (error_response ("Missing fields: " ++ repr_list (missing_fields r)) 400).
Proof.
  intros H. apply truthy_true in H. unfold handle. simpl. now rewrite H.
Qed.

Lemma handle_complete env g (r : record) :
  missing_fields r = [] ->
  handle env g (Ok (Some r))
  = (input_data <- inject_defaults r ;;
     outputs <- run_models env g input_data ;;
     let '(score, cls, proba) := outputs in
     assemble score cls proba)%result.
Proof.
  intros H. unfold handle. simpl. rewrite H. reflexivity.
Qed.

Lemma assemble_status score cls proba resp :
  assemble score cls proba = Ok resp -> status resp = 200.
Proof.
  unfold assemble.
  destruct (flood_category cls); simpl; [|discriminate].
  destruct (risk_probabilities proba); simpl; [|discriminate].
  intros [= <-]. reflexivity.
Qed.

(** Once validation has passed the view answers 200 or 500. *)
Lemma handle_complete_status env g (r : record) resp :
  missing_fields r = [] ->
  handle env g (Ok (Some r)) = Ok resp -> status resp = 200.
Proof.
  intros Hnil. rewrite (handle_complete env g r Hnil).
  destruct (inject_defaults r) as [r'|e]; simpl; [|discriminate].
  destruct (run_models env g r') as [[[score cls] proba]|e]; simpl; [|discriminate].
  apply assemble_status.
Qed.

(** C4. With models loaded (already cached, or cached by the lazy load),
    a request record that lacks at least one of the thirteen required
    fields is answered with HTTP 400 and the body [error], [success]: the
    error string is [Missing fields: ] followed by the list of exactly the
    absent required names, each between apostrophes, and success is
    false; the other fields of the record play no part. *)
Theorem predict_rejects_missing_fields env (r : record) w :
  PyDict.is_empty (models (glob (snd (ensure_loaded env w)))) = false ->
  missing_fields r <> [] ->
  predict env (Ok (Some r)) w
  = (Ok (mk_response 400
           [ ("error", VStr ("Missing fields: [" ++ join ", " (map quoted (missing_fields r))
                             ++ "]"));
             ("success", VBool false) ]%string),
     snd (ensure_loaded env w))
  /\ (forall f, In f (missing_fields r) <-> In f required /\ PyDict.mem f r = false).
Proof.
  intros Hfull Hmiss. split.
  - rewrite (predict_loaded env _ w Hfull), (handle_missing env _ r Hmiss).
    rewrite repr_list_missing_fields. reflexivity.
  - apply missing_fields_spec.
Qed.

Lemma predict_rejects_missing_fields_witness :
  predict Sample.env (Ok (Some Sample.partial_site)) Sample.warm
  = (Ok (mk_response 400
           [ ("error", VStr "Missing fields: ['Biodiversity_Index', 'Soil_Type']");
             ("success", VBool false) ]%string),
     Sample.warm)
  /\ (forall f, In f (missing_fields Sample.partial_site)
                <-> In f required /\ PyDict.mem f Sample.partial_site = false).
Proof.
  apply (predict_rejects_missing_fields Sample.env Sample.partial_site Sample.warm).
  - reflexivity.
  - vm_compute. discriminate.
Defined.

(** C10. Required-field validation looks at key presence only.  It passes
    exactly when every required name is a key of the record; the outcome
    is the same for two records with the same keys, whatever the values,
    so a record whose thirteen required keys all hold null passes;
    the validation step (the view from [request.json] on) answers 400 if
    and only if at least one required key is absent; a 400 from the view
    always means a required key is absent; and with models loaded the view
    answers 400 if and only if at least one required key is absent. *)
Theorem validation_tests_key_presence_only env (r : record) w :
  (missing_fields r = [] <-> forall f, In f required -> PyDict.mem f r = true) /\
  (forall r' : record,
      (forall k, PyDict.mem k r' = PyDict.mem k r) -> missing_fields r' = missing_fields r) /\
  (forall v : pyval, missing_fields (map (fun f => (f, v)) required) = []) /\
  (forall g,
      (exists resp, handle env g (Ok (Some r)) = Ok resp /\ status resp = 400)
      <-> exists f, In f required /\ PyDict.mem f r = false) /\
  exists resp,
    fst (predict env (Ok (Some r)) w) = Ok resp /\
    (status resp = 400 -> exists f, In f required /\ PyDict.mem f r = false) /\
    (PyDict.is_empty (models (glob (snd (ensure_loaded env w)))) = false ->
     (status resp = 400 <-> exists f, In f required /\ PyDict.mem f r = false)).
Proof.
  assert (Hex : missing_fields r <> [] <-> exists f, In f required /\ PyDict.mem f r = false).
  { split.
    - destruct (missing_fields r) as [|f l] eqn:E; [congruence|]. intros _.
      exists f. apply missing_fields_spec. rewrite E. left; reflexivity.
    - intros [f Hf] Hnil. apply missing_fields_spec in Hf. rewrite Hnil in Hf. exact Hf. }
  split; [apply missing_fields_nil|].
  split.
  { intros r' Hsame. unfold missing_fields. apply filter_ext. intros f. now rewrite Hsame. }
  split.
  { intros v. reflexivity. }
  split.
  { intros g. rewrite <- Hex. split.
    - intros (resp & Hh & Hst) Hnil.
      rewrite (handle_complete_status env g r resp Hnil Hh) in Hst. discriminate.
    - intros Hne. rewrite (handle_missing env g r Hne). eexists. split; reflexivity. }
  destruct (PyDict.is_empty (models (glob (snd (ensure_loaded env w))))) eqn:Hload.
  - rewrite (predict_unloaded env _ w Hload). simpl. eexists. split; [reflexivity|].
    simpl. split; [discriminate|discriminate].
  - rewrite (predict_loaded env _ w Hload). cbn [fst].
    destruct (truthy (missing_fields r)) eqn:Ht.
    + apply truthy_true in Ht.
      rewrite (handle_missing env _ r Ht). eexists. split; [reflexivity|]. simpl.
      split; [intros _; apply Hex; exact Ht|].
      intros _. split; [intros _; apply Hex; exact Ht | reflexivity].
    + apply truthy_false in Ht.
      destruct (handle env (glob (snd (ensure_loaded env w))) (Ok (Some r))) as [resp|e] eqn:Hh.
      * exists resp. split; [reflexivity|].
        rewrite (handle_complete_status env _ r resp Ht Hh).
        split; [discriminate|]. intros _. split; [discriminate|].
        intros H. apply Hex in H. congruence.
      * eexists. split; [reflexivity|]. simpl.
        split; [discriminate|]. intros _. split; [discriminate|].
        intros H. apply Hex in H. congruence.
Qed.

Lemma validation_tests_key_presence_only_witness :
  missing_fields Sample.null_site = [] /\
  fst (predict Sample.env (Ok (Some Sample.null_site)) Sample.warm)
  = Ok (error_response "unsupported operand type(s) for *: 'NoneType' and 'float'" 500).
Proof.
  split.
  - apply (proj2 (proj1 (validation_tests_key_presence_only
                           Sample.env Sample.null_site Sample.warm))).
    intros f Hf. simpl in Hf.
    repeat (destruct Hf as [<-|Hf]; [reflexivity|]). destruct Hf.
  - reflexivity.
Defined.

(** ** Default injection *)

Lemma mul_float_as_float v x c :
  as_float v = Some x -> mul_float v c = Ok (VFloat (x * c)%float).
Proof.
  destruct v; simpl; try discriminate.
  - intros [= <-]. reflexivity.
  - unfold float_of_int. destruct (PrimFloat.is_infinity (float_of_Z z)); [discriminate|].
    intros [= <-]. reflexivity.
  - intros [= <-]. reflexivity.
Qed.


Lemma setdefaults_fresh (ds : dict pyval) (r : record) :
  NoDup (PyDict.keys ds) ->
  (forall k, In k (PyDict.keys ds) -> PyDict.mem k r = false) ->
  setdefaults ds r = r ++ ds.
Proof.
  unfold setdefaults. revert r.
  induction ds as [|[k v] ds IH]; intros r Hnd Hfresh; simpl.
  - now rewrite app_nil_r.
  - inversion Hnd as [|k0 l0 Hnotin Hnd']; subst.
    rewrite setdefault_absent by (apply Hfresh; left; reflexivity).
    rewrite IH; [now rewrite <- app_assoc | exact Hnd' |].
    intros k' Hk'. rewrite mem_app, (Hfresh k') by (right; exact Hk'). simpl.
    unfold PyDict.mem. simpl.
    destruct (String.eqb k' k) eqn:E; [|reflexivity].
    apply String.eqb_eq in E. subst k'. contradiction.
Qed.

Lemma setdefaults_present (ds : dict pyval) (r : record) :
  (forall k, In k (PyDict.keys ds) -> PyDict.mem k r = true) ->
  setdefaults ds r = r.
Proof.
  unfold setdefaults. revert r.
  induction ds as [|[k v] ds IH]; intros r Hall; simpl; [reflexivity|].
  rewrite setdefault_present by (apply Hall; left; reflexivity).
  apply IH. intros k' Hk'. apply Hall. right; exact Hk'.
Qed.

Lemma defaults_numeric (r : record) capacity x :
  PyDict.get "Tourist_Capacity_Limit" r = Some capacity ->
  as_float capacity = Some x ->
  defaults r
  = Ok [ ("Country", VStr "USA");
         ("Flood_Risk_Index", VFloat 0.3);
         ("Drought_Risk_Index", VFloat 0.3);
         ("Temperature_C", PyDict.get_default "Average_Temperature_C" (VFloat 20.0) r);
         ("Annual_Rainfall_mm", VFloat 1000.0);
         ("Soil_Erosion_Risk", VFloat 0.2);
         ("Current_Tourist_Count", VFloat (x * 0.6));
         ("Human_Activity_Index", VFloat 0.4);
         ("Conservation_Investment_USD", VFloat 100000.0);
         ("Climate_Risk_Score", VFloat 0.4) ]%string%float.
Proof.
  intros Hcap Hx. unfold defaults, PyDict.getitem. rewrite Hcap. simpl.
  rewrite (mul_float_as_float _ _ _ Hx). reflexivity.
Qed.

(** C5, as the code has it.  For every record that holds the thirteen
    required fields and none of the ten optional ones, and whose
    [Tourist_Capacity_Limit] is a number, default injection returns the
    record followed by the ten optional fields, each with its specified
    value ([Country] is USA, [Temperature_C] is the record's
    [Average_Temperature_C], [Current_Tourist_Count] is the capacity
    limit times 0.6, the other seven are their literals); the fields the
    record came with are untouched, and injecting again returns the same
    record. *)
Theorem default_injection_fills_optionals (r : record) (capacity avg : pyval) (x : float) :
  missing_fields r = [] ->
  (forall k, In k optional -> PyDict.mem k r = false) ->
  PyDict.get "Tourist_Capacity_Limit" r = Some capacity ->
  as_float capacity = Some x ->
  PyDict.get "Average_Temperature_C" r = Some avg ->
  exists r',
    inject_defaults r = Ok r' /\
    r' = r ++ [ ("Country", VStr "USA");
                ("Flood_Risk_Index", VFloat 0.3);
                ("Drought_Risk_Index", VFloat 0.3);
                ("Temperature_C", avg);
                ("Annual_Rainfall_mm", VFloat 1000.0);
                ("Soil_Erosion_Risk", VFloat 0.2);
                ("Current_Tourist_Count", VFloat (x * 0.6));
                ("Human_Activity_Index", VFloat 0.4);
                ("Conservation_Investment_USD", VFloat 100000.0);
                ("Climate_Risk_Score", VFloat 0.4) ]%string%float /\
    PyDict.get "Country" r' = Some (VStr "USA") /\
    PyDict.get "Flood_Risk_Index" r' = Some (VFloat 0.3) /\
    PyDict.get "Drought_Risk_Index" r' = Some (VFloat 0.3) /\
    PyDict.get "Temperature_C" r' = Some avg /\
    PyDict.get "Annual_Rainfall_mm" r' = Some (VFloat 1000.0) /\
    PyDict.get "Soil_Erosion_Risk" r' = Some (VFloat 0.2) /\
    PyDict.get "Current_Tourist_Count" r' = Some (VFloat (x * 0.6)) /\
    PyDict.get "Human_Activity_Index" r' = Some (VFloat 0.4) /\
    PyDict.get "Conservation_Investment_USD" r' = Some (VFloat 100000.0) /\
    PyDict.get "Climate_Risk_Score" r' = Some (VFloat 0.4) /\
    (forall k v, PyDict.get k r = Some v -> PyDict.get k r' = Some v) /\
    inject_defaults r' = Ok r'.
Proof.
  intros _ Hfresh Hcap Hx Havg.
  eexists. split; [|split; [reflexivity|]].
  - unfold inject_defaults. rewrite (defaults_numeric r capacity x Hcap Hx).
    cbn [Py.bind]. unfold PyDict.get_default. rewrite Havg.
    rewrite setdefaults_fresh; [reflexivity| |exact Hfresh].
    simpl. repeat constructor; simpl; intuition discriminate.
  - assert (Hget : forall k, In k optional ->
                forall ds, PyDict.get k (r ++ ds) = PyDict.get k ds).
    { intros k Hk ds. rewrite get_app.
      apply Hfresh in Hk. apply mem_false_get in Hk. now rewrite Hk. }
    do 10 (split; [apply Hget; simpl; tauto|]).
    split.
    + intros k v Hk. rewrite get_app, Hk. reflexivity.
    + unfold inject_defaults.
      erewrite defaults_numeric;
        [|rewrite get_app, Hcap; reflexivity|exact Hx].
      cbn [Py.bind]. unfold PyDict.get_default. rewrite get_app, Havg.
      rewrite setdefaults_present; [reflexivity|].
      intros k Hk. rewrite mem_app. apply orb_true_iff. right.
      apply mem_keys. exact Hk.
Qed.

Lemma default_injection_fills_optionals_witness :
  exists r',
    inject_defaults Sample.site = Ok r' /\
    r' = Sample.site ++
         [ ("Country", VStr "USA");
           ("Flood_Risk_Index", VFloat 0.3);
           ("Drought_Risk_Index", VFloat 0.3);
           ("Temperature_C", VFloat 24.5);
           ("Annual_Rainfall_mm", VFloat 1000.0);
           ("Soil_Erosion_Risk", VFloat 0.2);
           ("Current_Tourist_Count", VFloat 300.0);
           ("Human_Activity_Index", VFloat 0.4);
           ("Conservation_Investment_USD", VFloat 100000.0);
           ("Climate_Risk_Score", VFloat 0.4) ]%string%float /\
    PyDict.get "Country" r' = Some (VStr "USA") /\
    PyDict.get "Flood_Risk_Index" r' = Some (VFloat 0.3) /\
    PyDict.get "Drought_Risk_Index" r' = Some (VFloat 0.3) /\
    PyDict.get "Temperature_C" r' = Some (VFloat 24.5) /\
    PyDict.get "Annual_Rainfall_mm" r' = Some (VFloat 1000.0) /\
    PyDict.get "Soil_Erosion_Risk" r' = Some (VFloat 0.2) /\
    PyDict.get "Current_Tourist_Count" r' = Some (VFloat 300.0) /\
    PyDict.get "Human_Activity_Index" r' = Some (VFloat 0.4) /\
    PyDict.get "Conservation_Investment_USD" r' = Some (VFloat 100000.0) /\
    PyDict.get "Climate_Risk_Score" r' = Some (VFloat 0.4) /\
    (forall k v, PyDict.get k Sample.site = Some v -> PyDict.get k r' = Some v) /\
    inject_defaults r' = Ok r'.
Proof.
  apply (default_injection_fills_optionals Sample.site (VInt 500) (VFloat 24.5) 500%float).
  - reflexivity.
  - intros k Hk. simpl in Hk.
    repeat (destruct Hk as [<-|Hk]; [reflexivity|]). destruct Hk.
  - reflexivity.
  - reflexivity.
  - reflexivity.
Defined.

(** C5 as the specification words it covers every record with the
    thirteen required keys; this one has them, has no optional key, and
    default injection raises on it instead of producing a record: the
    capacity limit is a string, and a string times 0.6 is a [TypeError].
    The view answers 500. *)
Lemma default_injection_raises_on_text_capacity :
  missing_fields Sample.text_capacity_site = [] /\
  forallb (fun k => negb (PyDict.mem k Sample.text_capacity_site)) optional = true /\
  inject_defaults Sample.text_capacity_site
  = Raise (mk_exn TypeError "can't multiply sequence by non-int of type 'float'") /\
  fst (predict Sample.env (Ok (Some Sample.text_capacity_site)) Sample.warm)
  = Ok (error_response "can't multiply sequence by non-int of type 'float'" 500).
Proof. repeat split; reflexivity. Qed.

(** ** Categorical encoding *)

Lemma position_in_classes s encoder :
  in_classes s encoder = true <-> exists c, position s (classes_ encoder) = Some c.
Proof.
  unfold in_classes. induction (classes_ encoder) as [|c l IH]; simpl.
  - split; [discriminate | intros [c H]; discriminate].
  - destruct (String.eqb s c); simpl.
    + split; eauto.
    + rewrite IH. destruct (position s l); split; eauto; intros [c' H]; discriminate.
Qed.

Lemma position_not_in_classes s encoder :
  in_classes s encoder = false <-> position s (classes_ encoder) = None.
Proof.
  pose proof (position_in_classes s encoder) as H.
  destruct (in_classes s encoder), (position s (classes_ encoder)) as [c|].
  - split; [discriminate | discriminate].
  - destruct (proj1 H eq_refl). discriminate.
  - assert (false = true) by (apply H; eauto). discriminate.
  - tauto.
Qed.

(** The code of a known label is where the label stands in [classes_]. *)
Lemma position_nth s l c :
  position s l = Some c -> 0 <= c < len l /\ nth_error l (Z.to_nat c) = Some s.
Proof.
  unfold len. revert c. induction l as [|a l IH]; simpl; intros c; [discriminate|].
  destruct (String.eqb s a) eqn:E.
  - intros [= <-]. apply String.eqb_eq in E. subst. simpl. split; [lia|reflexivity].
  - destruct (position s l) as [i|]; [|discriminate]. intros [= <-].
    destruct (IH i eq_refl) as [Hi Hn]. split; [lia|].
    replace (Z.to_nat (i + 1)) with (S (Z.to_nat i)) by lia. exact Hn.
Qed.

(** The lambda never raises: it asks [transform] only for labels the
    encoder knows. *)
Lemma encode_value_code env encoder x :
  encode_value env encoder x = Ok (VInt (code_of encoder (py_str env x))).
Proof.
  unfold encode_value, code_of.
  destruct (in_classes (py_str env x) encoder) eqn:E.
  - apply position_in_classes in E. destruct E as [c Hc]. simpl. rewrite Hc. reflexivity.
  - apply position_not_in_classes in E. rewrite E. reflexivity.
Qed.

Lemma encode_column_spec env task_encoders feat (df : record) :
  exists df',
    encode_column env task_encoders feat df = Ok df' /\
    (forall k, k <> feat -> PyDict.get k df' = PyDict.get k df) /\
    (forall x encoder,
        PyDict.get feat df = Some x -> PyDict.get feat task_encoders = Some encoder ->
        PyDict.get feat df' = Some (VInt (code_of encoder (py_str env x)))) /\
    (PyDict.get feat task_encoders = None -> df' = df).
Proof.
  unfold encode_column, PyDict.mem, PyDict.getitem.
  destruct (PyDict.get feat df) as [x|] eqn:Hx;
    destruct (PyDict.get feat task_encoders) as [encoder|] eqn:He; simpl;
    try (exists df; repeat split; auto; intros; discriminate).
  rewrite encode_value_code. simpl. eexists. split; [reflexivity|].
  split; [intros k Hk; now apply get_set_other|].
  split; [|discriminate].
  intros x' encoder' [= <-] [= <-]. apply get_set_same.
Qed.

(** C6. For every record in which [Vegetation_Type], [Soil_Type] or
    [Country] holds a string and the task has a fitted encoder for that
    field, the encoding loop returns (it does not raise) a record in which
    the field is the integer 0 when the string is not among the encoder's
    classes and the string's trained code (its position among the classes)
    when it is; preprocessing goes on from that record. *)
Theorem unseen_category_encodes_to_zero env g (data : record) task_type
    task_encoders feat s encoder :
  In feat categorical ->
  PyDict.get feat data = Some (VStr s) ->
  PyDict.get task_type (encoders g) = Some task_encoders ->
  PyDict.get feat task_encoders = Some encoder ->
  exists df,
    encode_categoricals env task_encoders data = Ok df /\
    (in_classes s encoder = false -> PyDict.get feat df = Some (VInt 0)) /\
    (in_classes s encoder = true ->
     exists c, position s (classes_ encoder) = Some c /\
               nth_error (classes_ encoder) (Z.to_nat c) = Some s /\
               PyDict.get feat df = Some (VInt c)) /\
    (PyDict.is_empty (models g) = false ->
     PyDict.mem task_type (scalers g) = true ->
     PyDict.mem (features_key task_type) (feature_names g) = true ->
     preprocess_body env g data task_type = select_and_scale env g task_type df).
Proof.
  intros Hfeat Hs Hencs Henc.
  unfold encode_categoricals, categorical. simpl.
  destruct (encode_column_spec env task_encoders "Vegetation_Type" data)
    as (d1 & E1 & O1 & S1 & _).
  destruct (encode_column_spec env task_encoders "Soil_Type" d1)
    as (d2 & E2 & O2 & S2 & _).
  destruct (encode_column_spec env task_encoders "Country" d2)
    as (d3 & E3 & O3 & S3 & _).
  rewrite E1. simpl. rewrite E2. simpl. rewrite E3. simpl.
  assert (Hcode : PyDict.get feat d3 = Some (VInt (code_of encoder s))).
  { simpl in Hfeat. destruct Hfeat as [<-|[<-|[<-|[]]]].
    - rewrite O3, O2 by discriminate. apply (S1 _ _ Hs Henc).
    - rewrite O3 by discriminate. apply (S2 (VStr s)); [|exact Henc].
      rewrite O1 by discriminate. exact Hs.
    - apply (S3 (VStr s)); [|exact Henc].
      rewrite O2, O1 by discriminate. exact Hs. }
  exists d3. split; [reflexivity|]. split; [|split].
  - intros Hnew. apply position_not_in_classes in Hnew.
    rewrite Hcode. unfold code_of. now rewrite Hnew.
  - intros Hknown. apply position_in_classes in Hknown. destruct Hknown as [c Hc].
    exists c. split; [exact Hc|].
    split; [apply (position_nth _ _ _ Hc)|].
    rewrite Hcode. unfold code_of. now rewrite Hc.
  - intros Hm Hsc Hfn. unfold preprocess_body, PyDict.getitem.
    rewrite Hm, Hsc, Hfn, Hencs.
    assert (Hmem : PyDict.mem task_type (encoders g) = true)
      by (apply mem_true_get; eauto).
    rewrite Hmem. simpl. unfold encode_categoricals, categorical. simpl.
    rewrite E1. simpl. rewrite E2. simpl. rewrite E3. reflexivity.
Qed.

Lemma unseen_category_encodes_to_zero_witness :
  exists df,
    encode_categoricals Sample.env Sample.task_encoders
      (PyDict.set "Vegetation_Type" (VStr "Tundra") Sample.site) = Ok df /\
    PyDict.get "Vegetation_Type" df = Some (VInt 0) /\
    PyDict.get "Soil_Type" df = Some (VInt 1).
Proof.
  destruct (unseen_category_encodes_to_zero Sample.env Sample.loaded
              (PyDict.set "Vegetation_Type" (VStr "Tundra") Sample.site) "regression"
              Sample.task_encoders "Vegetation_Type" "Tundra"
              (mk_LabelEncoder ["Forest"; "Grassland"; "Wetland"]%string))
    as (df & Hdf & Hzero & _).
  - simpl. tauto.
  - reflexivity.
  - reflexivity.
  - reflexivity.
  - exists df. split; [exact Hdf|]. split; [apply Hzero; reflexivity|].
    vm_compute in Hdf. injection Hdf as <-. reflexivity.
Defined.

(** ** Preprocessing failures *)

Lemma preprocess_wraps env g data task_type e :
  preprocess_body env g data task_type = Raise e ->
  preprocess_input_data env g data task_type
  = Raise (mk_exn Exception (preprocessing_prefix ++ exn_str e)%string).
Proof. unfold preprocess_input_data. now intros ->. Qed.

Lemma select_missing_column (df : record) cols :
  (exists c, In c cols /\ PyDict.mem c df = false) <->
  filter (fun c => negb (PyDict.mem c df)) cols <> [].
Proof.
  split.
  - intros (c & Hin & Hmem) Hnil.
    assert (H : In c (filter (fun c => negb (PyDict.mem c df)) cols))
      by (apply filter_In; split; [exact Hin | now rewrite Hmem]).
    rewrite Hnil in H. exact H.
  - destruct (filter (fun c => negb (PyDict.mem c df)) cols) as [|c l] eqn:E; [congruence|].
    intros _. exists c.
    assert (H : In c (filter (fun c => negb (PyDict.mem c df)) cols))
      by (rewrite E; left; reflexivity).
    apply filter_In in H. destruct H as [Hin Hneg].
    apply negb_true_iff in Hneg. auto.
Qed.

(** C8. Whatever step of the body fails, [preprocess_input_data] raises one
    kind of exception, a plain [Exception], whose message is the fixed
    prefix followed by the description of the original failure, and it
    raises only then.  In particular it raises when [models] is empty, when
    the task has no entry in [encoders] or in [scalers] or no
    [<task>_features] entry in [feature_names], when a listed column is
    absent from the encoded record, and when the scaler's [transform]
    raises. *)
Theorem preprocess_failures_are_wrapped env g (data : record) task_type :
  (forall e, preprocess_body env g data task_type = Raise e ->
             preprocess_input_data env g data task_type
             = Raise (mk_exn Exception ("Error preprocessing data: " ++ exn_str e))) /\
  (forall e', preprocess_input_data env g data task_type = Raise e' ->
              exn_kind e' = Exception /\
              exists e, preprocess_body env g data task_type = Raise e /\
                        exn_str e' = ("Error preprocessing data: " ++ exn_str e)%string) /\
  (forall X, preprocess_body env g data task_type = Ok X ->
             preprocess_input_data env g data task_type = Ok X) /\
  (models g = [] ->
   preprocess_input_data env g data task_type
   = Raise (mk_exn Exception "Error preprocessing data: Models not loaded")) /\
  (PyDict.mem task_type (encoders g) = false \/
   PyDict.mem task_type (scalers g) = false \/
   PyDict.mem (task_type ++ "_features") (feature_names g) = false ->
   exists e, preprocess_input_data env g data task_type = Raise e /\
     (models g <> [] ->
      e = mk_exn Exception
            ("Error preprocessing data: Missing encoders/scalers/features for task '"
             ++ task_type ++ "'"))) /\
  (forall task_encoders df df' cols,
      models g <> [] ->
      PyDict.get task_type (encoders g) = Some task_encoders ->
      PyDict.mem task_type (scalers g) = true ->
      PyDict.get (task_type ++ "_features") (feature_names g) = Some cols ->
      encode_categoricals env task_encoders data = Ok df ->
      coerce_protected env df = Ok df' ->
      (exists c, In c cols /\ PyDict.mem c df' = false) ->
      preprocess_input_data env g data task_type
      = Raise (mk_exn Exception
                 ("Error preprocessing data: Missing input features: "
                  ++ repr_list (filter (fun c => negb (PyDict.mem c df')) cols)))) /\
  (forall task_encoders df df' cols features sc e,
      models g <> [] ->
      PyDict.get task_type (encoders g) = Some task_encoders ->
      PyDict.get task_type (scalers g) = Some sc ->
      PyDict.get (task_type ++ "_features") (feature_names g) = Some cols ->
      encode_categoricals env task_encoders data = Ok df ->
      coerce_protected env df = Ok df' ->
      select df' cols = Ok features ->
      scaler_transform sc features = Raise e ->
      preprocess_input_data env g data task_type
      = Raise (mk_exn Exception ("Error preprocessing data: " ++ exn_str e)))%string.
Proof.
  assert (Hwrap := preprocess_wraps env g data task_type).
  split; [exact Hwrap|].
  split.
  { unfold preprocess_input_data.
    destruct (preprocess_body env g data task_type) as [X|e]; [discriminate|].
    intros e' [= <-]. simpl. eauto. }
  split.
  { unfold preprocess_input_data. now intros X ->. }
  split.
  { intros Hempty. apply (Hwrap (mk_exn Exception "Models not loaded")).
    unfold preprocess_body. now rewrite Hempty. }
  split.
  { intros Hlack.
    assert (Hguard : negb (PyDict.mem task_type (encoders g))
                     || negb (PyDict.mem task_type (scalers g))
                     || negb (PyDict.mem (features_key task_type) (feature_names g)) = true).
    { unfold features_key. destruct Hlack as [ -> | [ -> | -> ] ]; simpl;
        rewrite ?orb_true_r; reflexivity. }
    destruct (PyDict.is_empty (models g)) eqn:Hm.
    - eexists. split.
      + apply Hwrap. unfold preprocess_body. rewrite Hm. reflexivity.
      + intros Hne. apply is_empty_false in Hne. congruence.
    - eexists. split.
      + apply Hwrap. unfold preprocess_body. rewrite Hm, Hguard. reflexivity.
      + intros _. reflexivity. }
  assert (Hbody : forall task_encoders df sc_present cols,
             models g <> [] ->
             PyDict.get task_type (encoders g) = Some task_encoders ->
             PyDict.mem task_type (scalers g) = sc_present -> sc_present = true ->
             PyDict.get (task_type ++ "_features")%string (feature_names g) = Some cols ->
             encode_categoricals env task_encoders data = Ok df ->
             preprocess_body env g data task_type = select_and_scale env g task_type df).
  { intros task_encoders df sc_present cols Hne Henc Hsc -> Hcols Hdf.
    apply is_empty_false in Hne. unfold preprocess_body, PyDict.getitem, features_key.
    assert (He : PyDict.mem task_type (encoders g) = true) by (apply mem_true_get; eauto).
    assert (Hf : PyDict.mem (task_type ++ "_features")%string (feature_names g) = true)
      by (apply mem_true_get; eauto).
    rewrite Hne, He, Hsc, Hf, Henc. simpl. rewrite Hdf. reflexivity. }
  split.
  - intros task_encoders df df' cols Hne Henc Hsc Hcols Hdf Hdf' Hmissing.
    apply select_missing_column in Hmissing. apply truthy_true in Hmissing.
    apply (Hwrap (mk_exn Exception _)).
    rewrite (Hbody task_encoders df true cols Hne Henc Hsc eq_refl Hcols Hdf).
    unfold select_and_scale, PyDict.getitem, features_key.
    rewrite Hdf'. simpl. rewrite Hcols. simpl. rewrite Hmissing. reflexivity.
  - intros task_encoders df df' cols features sc e Hne Henc Hsc Hcols Hdf Hdf' Hsel He.
    apply Hwrap.
    assert (Hscm : PyDict.mem task_type (scalers g) = true) by (apply mem_true_get; eauto).
    rewrite (Hbody task_encoders df true cols Hne Henc Hscm eq_refl Hcols Hdf).
    unfold select_and_scale, PyDict.getitem, features_key.
    rewrite Hdf'. simpl. rewrite Hcols. simpl.
    destruct (truthy (filter (fun c => negb (PyDict.mem c df')) cols)) eqn:Ht.
    + exfalso. apply truthy_true in Ht. apply select_missing_column in Ht.
      destruct Ht as (c & Hin & Hmem).
      clear - Hsel Hin Hmem. revert features Hsel.
      induction cols as [|c0 cols IH]; intros features Hsel; [destruct Hin|].
      simpl in Hsel. unfold PyDict.getitem in Hsel.
      destruct Hin as [->|Hin].
      * apply mem_false_get in Hmem. rewrite Hmem in Hsel. discriminate.
      * destruct (PyDict.get c0 df'); [|discriminate]. simpl in Hsel.
        destruct (select df' cols) as [rest|]; [|discriminate].
        apply (IH Hin rest eq_refl).
    + rewrite Hsel. simpl. rewrite Hsc. simpl. exact He.
Qed.

Lemma preprocess_failures_are_wrapped_witness :
  preprocess_input_data Sample.env initial_globals Sample.site "regression"
  = Raise (mk_exn Exception "Error preprocessing data: Models not loaded").
Proof.
  apply (proj1 (proj2 (proj2 (proj2
           (preprocess_failures_are_wrapped Sample.env initial_globals Sample.site
              "regression"))))).
  reflexivity.
Defined.

(** ** Binary64 comparisons *)

Lemma SFcompare_antisym x y :
  SFcompare y x = option_map CompOpp (SFcompare x y).
Proof.
  destruct x as [sx|sx| |sx mx ex], y as [sy|sy| |sy my ey]; simpl;
    try reflexivity;
    try (destruct sx; reflexivity); try (destruct sy; reflexivity);
    try (destruct sx, sy; reflexivity).
  destruct sx, sy; try reflexivity; simpl;
    rewrite (Z.compare_antisym ey ex);
    destruct (ey ?= ex)%Z; simpl; try reflexivity;
    rewrite (Pos.compare_cont_antisym mx my Eq); reflexivity.
Qed.

Lemma not_nan_spec x : PrimFloat.is_nan x = false -> Prim2SF x <> S754_nan.
Proof.
  unfold PrimFloat.is_nan. rewrite eqb_spec. intros H Hnan.
  rewrite Hnan in H. discriminate.
Qed.

Lemma SFcompare_defined x y :
  x <> S754_nan -> y <> S754_nan -> exists c, SFcompare x y = Some c.
Proof.
  destruct x, y; simpl; intros Hx Hy; try congruence; eauto.
Qed.

(** [c <= x] excludes [x < c]; for numbers (no NaN) one of the two holds. *)
Lemma leb_excludes_ltb (x c : float) :
  (c <=? x)%float = true -> (x <? c)%float = false.
Proof.
  rewrite leb_spec, ltb_spec. unfold SFleb, SFltb.
  rewrite (SFcompare_antisym (Prim2SF x) (Prim2SF c)).
  destruct (SFcompare (Prim2SF x) (Prim2SF c)) as [[]|]; simpl; congruence.
Qed.

Lemma not_ltb_leb (x c : float) :
  PrimFloat.is_nan x = false -> PrimFloat.is_nan c = false ->
  (x <? c)%float = false -> (c <=? x)%float = true.
Proof.
  intros Hx Hc. apply not_nan_spec in Hx. apply not_nan_spec in Hc.
  rewrite leb_spec, ltb_spec. unfold SFleb, SFltb.
  rewrite (SFcompare_antisym (Prim2SF x) (Prim2SF c)).
  destruct (SFcompare_defined _ _ Hx Hc) as [o ->].
  destruct o; simpl; congruence.
Qed.

Lemma ltb_not_nan (x c : float) :
  (x <? c)%float = true -> PrimFloat.is_nan x = false.
Proof.
  unfold PrimFloat.is_nan. rewrite ltb_spec, eqb_spec. unfold SFltb, SFeqb.
  destruct (Prim2SF x) as [s|s| |s m e]; simpl; try reflexivity; try discriminate.
  - destruct s; reflexivity.
  - intros _. destruct s; rewrite Z.compare_refl, Pos.compare_cont_refl; reflexivity.
Qed.

(** The upper threshold lies above the lower one. *)
Lemma above_upper_above_lower (x : float) :
  (0.67 <=? x)%float = true -> (0.33 <=? x)%float = true.
Proof.
  rewrite !leb_spec. unfold SFleb.
  change (Prim2SF 0.67) with (S754_finite false 6034823500676465 (-53)).
  change (Prim2SF 0.33) with (S754_finite false 5944751508129055 (-54)).
  destruct (Prim2SF x) as [s|s| |s m e]; cbn -[Z.compare Pos.compare_cont];
    try discriminate.
  - destruct s; auto.
  - destruct s; [discriminate|].
    destruct (Z.compare_spec (-53) e) as [He|He|He];
      destruct (Z.compare_spec (-54) e) as [He'|He'|He']; try lia; auto; discriminate.
Qed.

Lemma digits2_pos_bounds m :
  2 ^ (Zpos (digits2_pos m) - 1) <= Zpos m < 2 ^ Zpos (digits2_pos m).
Proof.
  induction m as [m IH|m IH|]; cbn [digits2_pos]; [| |simpl; lia].
  - rewrite Pos2Z.inj_succ.
    replace (Z.succ (Z.pos (digits2_pos m)) - 1) with (Z.succ (Z.pos (digits2_pos m) - 1)) by lia.
    rewrite !Z.pow_succ_r by lia. lia.
  - rewrite Pos2Z.inj_succ.
    replace (Z.succ (Z.pos (digits2_pos m)) - 1) with (Z.succ (Z.pos (digits2_pos m) - 1)) by lia.
    rewrite !Z.pow_succ_r by lia. lia.
Qed.

Lemma bounded_cases m e :
  bounded prec emax m e = true ->
  Zpos m < 2 ^ 53 /\ -1074 <= e /\ (e = -1074 \/ 2 ^ 52 <= Zpos m).
Proof.
  unfold bounded, canonical_mantissa, fexp, SpecFloat.emin.
  change prec with 53. change emax with 1024.
  intros H. apply andb_true_iff in H. destruct H as [H _].
  apply Z.eqb_eq in H.
  pose proof (digits2_pos_bounds m) as [Hlo Hhi].
  destruct (Z.max_spec (Z.pos (digits2_pos m) + e - 53) (3 - 1024 - 53)) as [[Hc Hm]|[Hc Hm]];
    rewrite Hm in H.
  - split; [|split; [lia|left; lia]].
    eapply Z.lt_le_trans; [exact Hhi|]. apply Z.pow_le_mono_r; lia.
  - assert (Hd : Z.pos (digits2_pos m) = 53) by lia.
    rewrite Hd in Hlo, Hhi. split; [exact Hhi|]. split; [lia|right; exact Hlo].
Qed.

Lemma ltb_threshold_exact (mc : positive) (ec n d : Z) :
  Zpos mc < 2 ^ 53 -> -1074 < ec < 0 -> 0 < d ->
  2 ^ 53 * d <= n * 2 ^ (1 - ec) ->
  (Zpos mc - 1) * d < n * 2 ^ (- ec) <= Zpos mc * d ->
  forall s m e,
    bounded prec emax m e = true ->
    SFltb (S754_finite s m e) (S754_finite false mc ec) = true
    <-> (Q_of_finite s m e < n # Z.to_pos d)%Q.
Proof.
  intros Hmc Hec Hd Hlow [Hpred Hc] s m e Hb.
  apply bounded_cases in Hb. destruct Hb as (Hm & He & Hnorm).
  assert (Hkc : 0 < 2 ^ (- ec)) by (apply Z.pow_pos_nonneg; lia).
  assert (Hn : 0 < n) by nia.
  assert (Hval : (Q_of_finite s m e < n # Z.to_pos d)%Q <->
                 if 0 <=? e
                 then (if s then Z.neg m else Z.pos m) * 2 ^ e * d < n
                 else (if s then Z.neg m else Z.pos m) * d < n * 2 ^ (- e)).
  { unfold Q_of_finite, Qlt. destruct (Z.leb_spec 0 e); cbn [Qnum Qden inject_Z];
      rewrite Z2Pos.id by exact Hd.
    - rewrite Z.mul_1_r. reflexivity.
    - rewrite Z2Pos.id by (apply Z.pow_pos_nonneg; lia). reflexivity. }
  rewrite Hval. clear Hval.
  unfold SFltb, SFcompare.
  destruct s.
  - split; [intros _|reflexivity].
    pose proof (Pos2Z.neg_is_neg m).
    destruct (Z.leb_spec 0 e).
    + assert (0 < 2 ^ e) by (apply Z.pow_pos_nonneg; lia).
      assert (Z.neg m * 2 ^ e < 0) by (apply Z.mul_neg_pos; lia).
      assert (Z.neg m * 2 ^ e * d < 0) by (apply Z.mul_neg_pos; lia).
      lia.
    + assert (0 < 2 ^ (- e)) by (apply Z.pow_pos_nonneg; lia).
      assert (Z.neg m * d < 0) by (apply Z.mul_neg_pos; lia).
      assert (0 < n * 2 ^ (- e)) by (apply Z.mul_pos_pos; lia).
      lia.
  - destruct (Z.compare_spec e ec) as [Heq|Hlt|Hgt].
    + subst e. replace (0 <=? ec) with false by (symmetry; apply Z.leb_gt; lia).
      change (Pos.compare_cont Eq m mc) with (Pos.compare m mc).
      destruct (Pos.compare_spec m mc) as [E|E|E].
      * subst. split; [discriminate|]. intros. nia.
      * split; [intros _|reflexivity]. nia.
      * split; [discriminate|]. intros. nia.
    + split; [intros _|reflexivity].
      replace (0 <=? e) with false by (symmetry; apply Z.leb_gt; lia).
      assert (0 < 2 ^ (- e)) by (apply Z.pow_pos_nonneg; lia).
      assert (Hpow : 2 ^ (1 - ec) <= 2 ^ (- e)) by (apply Z.pow_le_mono_r; lia).
      nia.
    + split; [discriminate|]. intros Hval. exfalso.
      assert (Hm52 : 2 ^ 52 <= Z.pos m) by (destruct Hnorm; [lia|assumption]).
      assert (Hhalf : 2 * 2 ^ (- ec - 1) = 2 ^ (- ec)).
      { rewrite <- Z.pow_succ_r by lia. f_equal. lia. }
      assert (HP : 1 <= 2 ^ (- ec - 1)) by (apply (Z.pow_le_mono_r 2 0); lia).
      rewrite <- Hhalf in Hc.
      assert (Hmcd : Z.pos mc * d < 2 ^ 53 * d) by (apply Z.mul_lt_mono_pos_r; lia).
      assert (Hmd : 2 ^ 52 * d <= Z.pos m * d) by (apply Z.mul_le_mono_nonneg_r; lia).
      destruct (Z.leb_spec 0 e).
      * assert (1 <= 2 ^ e) by (apply (Z.pow_le_mono_r 2 0 e); lia).
        assert (Z.pos m * d <= Z.pos m * d * 2 ^ e).
        { rewrite <- (Z.mul_1_r (Z.pos m * d)) at 1.
          apply Z.mul_le_mono_nonneg_l; lia. }
        assert (n <= n * 2 ^ (- ec - 1)).
        { rewrite <- (Z.mul_1_r n) at 1. apply Z.mul_le_mono_nonneg_l; lia. }
        lia.
      * assert (Hpow : 2 ^ (- e) <= 2 ^ (- ec - 1)) by (apply Z.pow_le_mono_r; lia).
        assert (n * 2 ^ (- e) <= n * 2 ^ (- ec - 1))
          by (apply Z.mul_le_mono_nonneg_l; lia).
        lia.
Qed.

(** Comparing a finite float with the literal 0.33 (or 0.67) is comparing
    its exact value with the decimal 33/100 (or 67/100): no binary64 lies
    between the decimal and the literal's binary64. *)
Lemma ltb_exact_value (x c : float) (mc : positive) (ec n : Z) (v : Q) :
  Prim2SF c = S754_finite false mc ec ->
  Zpos mc < 2 ^ 53 -> -1074 < ec < 0 ->
  2 ^ 53 * 100 <= n * 2 ^ (1 - ec) ->
  (Zpos mc - 1) * 100 < n * 2 ^ (- ec) <= Zpos mc * 100 ->
  float_value x = Some v ->
  (x <? c)%float = true <-> (v < n # 100)%Q.
Proof.
  intros Hc Hmc Hec Hlow Hbracket. unfold float_value. rewrite ltb_spec, Hc.
  pose proof (Prim2SF_valid x) as Hvalid.
  destruct (Prim2SF x) as [s|s| |s m e]; try discriminate; intros [= <-].
  - assert (Hn : 0 < n).
    { assert (0 < 2 ^ (- ec)) by (apply Z.pow_pos_nonneg; lia). nia. }
    unfold Qlt. simpl. split; [intros _; lia|reflexivity].
  - apply (ltb_threshold_exact mc ec n 100 Hmc Hec eq_refl Hlow Hbracket s m e Hvalid).
Qed.

Lemma ltb_lower_exact (x : float) (v : Q) :
  float_value x = Some v -> (x <? 0.33)%float = true <-> (v < 33 # 100)%Q.
Proof.
  apply (ltb_exact_value x 0.33 5944751508129055 (-54) 33 v); try reflexivity.
  - split; reflexivity.
  - vm_compute. discriminate.
  - vm_compute. split; [reflexivity|discriminate].
Qed.

Lemma ltb_upper_exact (x : float) (v : Q) :
  float_value x = Some v -> (x <? 0.67)%float = true <-> (v < 67 # 100)%Q.
Proof.
  apply (ltb_exact_value x 0.67 6034823500676465 (-53) 67 v); try reflexivity.
  - split; reflexivity.
  - vm_compute. discriminate.
  - vm_compute. split; [reflexivity|discriminate].
Qed.

(** ** The response built from the model outputs *)

Lemma assemble_body score cls proba resp :
  assemble score cls proba = Ok resp ->
  exists flood_cat probs,
    flood_category cls = Ok flood_cat /\
    risk_probabilities proba = Ok probs /\
    resp = mk_response 200
             [ ("success", VBool true);
               ("climate_risk_score", VFloat (float_of_scalar score));
               ("flood_risk_category", VStr flood_cat);
               ("risk_probabilities", VDict probs);
               ("risk_level", VStr (risk_level score)) ]%string.
Proof.
  unfold assemble.
  destruct (flood_category cls) as [flood_cat|]; simpl; [|discriminate].
  destruct (risk_probabilities proba) as [probs|]; simpl; [|discriminate].
  intros [= <-]. eauto.
Qed.

(** C2. For every regression score that is a number (a binary64 other
    than NaN), the [risk_level] of the response is Low exactly when
    score < 0.33, Medium exactly when 0.33 <= score < 0.67 and High
    exactly when 0.67 <= score; 0.33 itself is Medium and 0.67 itself is
    High.  This holds with the comparisons read as the code runs them
    (binary64 comparisons against the binary64 literals) and, for every
    finite score, with the score's exact value compared as a real number
    with the decimals 33/100 and 67/100. *)
Theorem risk_level_thresholds (score : float) :
  PrimFloat.is_nan score = false ->
  ((risk_level (SFloat score) = "Low"%string <-> (score <? 0.33)%float = true) /\
   (risk_level (SFloat score) = "Medium"%string
    <-> (0.33 <=? score)%float = true /\ (score <? 0.67)%float = true) /\
   (risk_level (SFloat score) = "High"%string <-> (0.67 <=? score)%float = true)) /\
  (forall v : Q,
      float_value score = Some v ->
      (risk_level (SFloat score) = "Low"%string <-> (v < 33 # 100)%Q) /\
      (risk_level (SFloat score) = "Medium"%string
       <-> (33 # 100 <= v)%Q /\ (v < 67 # 100)%Q) /\
      (risk_level (SFloat score) = "High"%string <-> (67 # 100 <= v)%Q)) /\
  risk_level (SFloat 0.33) = "Medium"%string /\
  risk_level (SFloat 0.67) = "High"%string /\
  (forall cls proba resp,
      assemble (SFloat score) cls proba = Ok resp ->
      PyDict.get "risk_level" (body resp) = Some (VStr (risk_level (SFloat score)))).
Proof.
  intros Hnum.
  assert (Hlow : (0.33 <=? score)%float = true -> (score <? 0.33)%float = false)
    by apply leb_excludes_ltb.
  assert (Hhigh : (0.67 <=? score)%float = true -> (score <? 0.67)%float = false)
    by apply leb_excludes_ltb.
  assert (Hlow' : (score <? 0.33)%float = false -> (0.33 <=? score)%float = true)
    by (apply not_ltb_leb; [exact Hnum|reflexivity]).
  assert (Hhigh' : (score <? 0.67)%float = false -> (0.67 <=? score)%float = true)
    by (apply not_ltb_leb; [exact Hnum|reflexivity]).
  pose proof (above_upper_above_lower score) as Hmono.
  unfold risk_level, scalar_lt_float. cbn [float_of_scalar].
  split; [split; [|split]|split; [|split; [|split]]].
  - destruct (score <? 0.33)%float; [tauto|].
    destruct (score <? 0.67)%float; split; discriminate.
  - destruct (score <? 0.33)%float eqn:E1.
    + split; [discriminate|]. intros [H _]. apply Hlow in H. discriminate.
    + destruct (score <? 0.67)%float eqn:E2.
      * split; auto.
      * split; [discriminate|]. intros [_ H]. discriminate.
  - destruct (score <? 0.33)%float eqn:E1.
    + split; [discriminate|]. intros H. apply Hmono, Hlow in H. discriminate.
    + destruct (score <? 0.67)%float eqn:E2.
      * split; [discriminate|]. intros H. apply Hhigh in H. discriminate.
      * split; auto.
  - intros v Hv.
    pose proof (ltb_lower_exact score v Hv) as L1.
    pose proof (ltb_upper_exact score v Hv) as L2.
    destruct (score <? 0.33)%float.
    + assert (H1 : (v < 33 # 100)%Q) by (apply L1; reflexivity).
      repeat split; intros; try discriminate; try assumption; try reflexivity; lra.
    + assert (H1 : ~ (v < 33 # 100)%Q) by (intros H; apply L1 in H; discriminate).
      destruct (score <? 0.67)%float.
      * assert (H2 : (v < 67 # 100)%Q) by (apply L2; reflexivity).
        repeat split; intros; try discriminate; try assumption; try reflexivity; lra.
      * assert (H2 : ~ (v < 67 # 100)%Q) by (intros H; apply L2 in H; discriminate).
        repeat split; intros; try discriminate; try assumption; try reflexivity; lra.
  - reflexivity.
  - reflexivity.
  - intros cls proba resp H. apply assemble_body in H.
    destruct H as (flood_cat & probs & _ & _ & ->). reflexivity.
Qed.

Lemma risk_level_thresholds_witness :
  risk_level (SFloat 0.669) = "Medium"%string /\
  risk_level (SFloat 0.10) = "Low"%string /\
  risk_level (SFloat 0.99) = "High"%string.
Proof.
  split; [|split].
  - apply (proj2 (proj1 (proj2 (proj1 (risk_level_thresholds 0.669 eq_refl))))).
    split; reflexivity.
  - reflexivity.
  - reflexivity.
Defined.

(** ** Class index and class probabilities *)

Lemma array_index_nth {A : Type} (a : list A) (i : Z) (x : A) :
  0 <= i -> nth_error a (Z.to_nat i) = Some x -> array_index a i = Ok x.
Proof.
  intros Hi Hx. unfold array_index, index_with, len. cbv zeta.
  assert (Hlt : (Z.to_nat i < List.length a)%nat)
    by (apply nth_error_Some; congruence).
  assert (E1 : (i <? 0) = false) by (apply Z.ltb_ge; lia).
  assert (E2 : (Z.of_nat (List.length a) <=? i) = false) by (apply Z.leb_gt; lia).
  rewrite E1. rewrite E1, E2. cbn [orb]. rewrite Hx. reflexivity.
Qed.

(** For the indices a fitted classifier is meant to give, the mapping is
    the one intended: 0, 1 and 2 are Low, Medium and High, and any index
    from 3 on is Unknown. *)
Lemma flood_category_nonnegative (z : Z) :
  0 <= z ->
  flood_category (SInt z)
  = Ok (if z =? 0 then "Low"%string
        else if z =? 1 then "Medium"%string
        else if z =? 2 then "High"%string
        else "Unknown"%string).
Proof.
  intros Hz. unfold flood_category, scalar_lt_int, list_index_scalar.
  change (len cats) with 3.
  destruct (Z.ltb_spec z 3).
  - assert (Hcase : z = 0 \/ z = 1 \/ z = 2) by lia.
    destruct Hcase as [->|[->| ->]]; reflexivity.
  - destruct (Z.eqb_spec z 0); [lia|].
    destruct (Z.eqb_spec z 1); [lia|].
    destruct (Z.eqb_spec z 2); [lia|]. reflexivity.
Qed.

Lemma flood_category_nonnegative_witness :
  flood_category (SInt 3) = Ok "Unknown"%string.
Proof. apply (flood_category_nonnegative 3). lia. Defined.

(** C1, where the code departs from it.  A negative class index passes the
    guard [cls < len(cats)] and indexes the list from its end: -1, -2 and
    -3 come out as High, Medium and Low, and from -4 down the indexing
    raises [IndexError], which the view answers with a 500.  No negative
    index is mapped to Unknown.  With a classifier predicting -1 the view
    answers 200 with the category High. *)
Theorem flood_category_negative_index :
  flood_category (SInt (-1)) = Ok "High"%string /\
  flood_category (SInt (-2)) = Ok "Medium"%string /\
  flood_category (SInt (-3)) = Ok "Low"%string /\
  flood_category (SInt (-4)) = Raise (mk_exn IndexError "list index out of range") /\
  (forall z, z < -3 ->
     flood_category (SInt z) = Raise (mk_exn IndexError "list index out of range")) /\
  (forall z, z < 0 -> flood_category (SInt z) <> Ok "Unknown"%string) /\
  (exists resp,
      fst (predict Sample.env (Ok (Some Sample.site))
             (Sample.with_classifier Sample.signed_classifier)) = Ok resp /\
      status resp = 200 /\
      PyDict.get "flood_risk_category" (body resp) = Some (VStr "High")).
Proof.
  assert (Hlow : forall z, z < -3 ->
            flood_category (SInt z) = Raise (mk_exn IndexError "list index out of range")).
  { intros z Hz. unfold flood_category, scalar_lt_int, list_index_scalar, list_index,
      index_with. change (len cats) with 3. cbv zeta.
    assert (E1 : (z <? 3) = true) by (apply Z.ltb_lt; lia).
    assert (E2 : (z <? 0) = true) by (apply Z.ltb_lt; lia).
    assert (E3 : (z + 3 <? 0) = true) by (apply Z.ltb_lt; lia).
    rewrite E1, E2, E3. reflexivity. }
  repeat split; try reflexivity; try exact Hlow.
  - intros z Hz.
    destruct (Z.ltb_spec z (-3)) as [Hlt|Hge].
    + rewrite (Hlow z Hlt). discriminate.
    + assert (Hcase : z = -3 \/ z = -2 \/ z = -1) by lia.
      destruct Hcase as [->|[->| ->]]; discriminate.
  - eexists. split; [reflexivity|]. split; reflexivity.
Qed.

(** C9, as the code has it.  For every probability vector with at least
    three entries the map holds exactly the three known labels, each with
    the probability at its index (Low the first, Medium the second, High
    the third); entries past the third are not read. *)
Theorem risk_probabilities_three_classes (proba : list float) :
  3 <= len proba ->
  exists p0 p1 p2 rest,
    proba = p0 :: p1 :: p2 :: rest /\
    risk_probabilities proba
    = Ok [ ("Low", VFloat p0); ("Medium", VFloat p1); ("High", VFloat p2) ]%string /\
    (forall score cls resp,
        assemble score cls proba = Ok resp ->
        PyDict.get "risk_probabilities" (body resp)
        = Some (VDict [ ("Low", VFloat p0); ("Medium", VFloat p1);
                        ("High", VFloat p2) ]%string)).
Proof.
  intros Hlen.
  destruct proba as [|p0 [|p1 [|p2 rest]]]; unfold len in Hlen; simpl in Hlen; try lia.
  exists p0, p1, p2, rest. split; [reflexivity|].
  assert (Hprobs : risk_probabilities (p0 :: p1 :: p2 :: rest)
                   = Ok [ ("Low", VFloat p0); ("Medium", VFloat p1);
                          ("High", VFloat p2) ]%string).
  { unfold risk_probabilities. change (range (len cats)) with [0; 1; 2].
    cbn [for_each].
    change (list_index cats 0) with (@Ok string "Low").
    change (list_index cats 1) with (@Ok string "Medium").
    change (list_index cats 2) with (@Ok string "High").
    cbn [Py.bind]. rewrite (array_index_nth _ 0 p0) by (try reflexivity; lia).
    cbn [Py.bind]. rewrite (array_index_nth _ 1 p1) by (try reflexivity; lia).
    cbn [Py.bind]. rewrite (array_index_nth _ 2 p2) by (try reflexivity; lia).
    reflexivity. }
  split; [exact Hprobs|].
  intros score cls resp H. apply assemble_body in H.
  destruct H as (flood_cat & probs & _ & Hp & ->).
  rewrite Hprobs in Hp. injection Hp as <-. reflexivity.
Qed.

Lemma risk_probabilities_three_classes_witness :
  risk_probabilities [0.1; 0.7; 0.2; 0.0]%float
  = Ok [ ("Low", VFloat 0.1); ("Medium", VFloat 0.7); ("High", VFloat 0.2) ]%string.
Proof.
  destruct (risk_probabilities_three_classes [0.1; 0.7; 0.2; 0.0]%float)
    as (p0 & p1 & p2 & rest & Hshape & Hprobs & _).
  - vm_compute. discriminate.
  - injection Hshape as <- <- <- <-. exact Hprobs.
Defined.

(** C9 as the specification words it has a shorter vector fill only the
    labels in range.  With two probabilities the comprehension reads
    index 2, numpy raises [IndexError], no map is built, and the view
    answers 500. *)
Lemma risk_probabilities_short_vector :
  risk_probabilities [0.4; 0.6]%float
  = Raise (mk_exn IndexError "index 2 is out of bounds for axis 0 with size 2") /\
  fst (predict Sample.env (Ok (Some Sample.site))
         (Sample.with_classifier Sample.binary_classifier))
  = Ok (error_response "index 2 is out of bounds for axis 0 with size 2" 500).
Proof. split; reflexivity. Qed.

(** ** Further properties of the loader and of the views *)

(** The run of the loader when nothing fails. *)
Lemma load_run_complete env w files m_reg m_cls sc_reg sc_cls e_reg e_cls fn :
  missing_files env = [] ->
  os_path_exists env (MODEL_DIR env) = true ->
  os_listdir env (MODEL_DIR env) = Ok files ->
  load_estimator env (os_path_join (MODEL_DIR env) "best_regression_model_linear.pkl")
    = Ok m_reg ->
  load_estimator env (os_path_join (MODEL_DIR env) "best_classification_model_logistic.pkl")
    = Ok m_cls ->
  load_scaler env (os_path_join (MODEL_DIR env) "regression_scaler.pkl") = Ok sc_reg ->
  load_scaler env (os_path_join (MODEL_DIR env) "classification_scaler.pkl") = Ok sc_cls ->
  load_encoders env (os_path_join (MODEL_DIR env) "regression_encoders.pkl") = Ok e_reg ->
  load_encoders env (os_path_join (MODEL_DIR env) "classification_encoders.pkl") = Ok e_cls ->
  load_json env (os_path_join (BASE_DIR env) "feature_names.json") = Ok fn ->
  fst (load_models_and_processors env w) = Ok true /\
  glob (snd (load_models_and_processors env w))
  = mk_globals
      (PyDict.set "classification" m_cls (PyDict.set "regression" m_reg (models (glob w))))
      (PyDict.set "classification" sc_cls (PyDict.set "regression" sc_reg (scalers (glob w))))
      (PyDict.set "classification" e_cls (PyDict.set "regression" e_reg (encoders (glob w))))
      fn.
Proof.
  intros Hmiss Hdir Hls H1 H2 H3 H4 H5 H6 H7.
  unfold load_models_and_processors, try_except, load_body, mbind, print, lift, ret,
    update_globals.
  cbn [fst snd glob stdout]. rewrite Hdir, Hls. cbn [fst snd glob stdout].
  rewrite Hmiss. cbn [truthy]. rewrite H1, H2, H3, H4, H5, H6, H7.
  split; reflexivity.
Qed.

(** When the six files are there, listing the directory does not raise and
    every artifact unpickles, the loader returns [True] and the four
    dictionaries hold the artifacts under their task keys. *)
Theorem load_success env w files m_reg m_cls sc_reg sc_cls e_reg e_cls fn :
  missing_files env = [] ->
  os_path_exists env (MODEL_DIR env) = true ->
  os_listdir env (MODEL_DIR env) = Ok files ->
  load_estimator env (os_path_join (MODEL_DIR env) "best_regression_model_linear.pkl")
    = Ok m_reg ->
  load_estimator env (os_path_join (MODEL_DIR env) "best_classification_model_logistic.pkl")
    = Ok m_cls ->
  load_scaler env (os_path_join (MODEL_DIR env) "regression_scaler.pkl") = Ok sc_reg ->
  load_scaler env (os_path_join (MODEL_DIR env) "classification_scaler.pkl") = Ok sc_cls ->
  load_encoders env (os_path_join (MODEL_DIR env) "regression_encoders.pkl") = Ok e_reg ->
  load_encoders env (os_path_join (MODEL_DIR env) "classification_encoders.pkl") = Ok e_cls ->
  load_json env (os_path_join (BASE_DIR env) "feature_names.json") = Ok fn ->
  fst (load_models_and_processors env w) = Ok true /\
  glob (snd (load_models_and_processors env w))
  = mk_globals
      (PyDict.set "classification" m_cls (PyDict.set "regression" m_reg (models (glob w))))
      (PyDict.set "classification" sc_cls (PyDict.set "regression" sc_reg (scalers (glob w))))
      (PyDict.set "classification" e_cls (PyDict.set "regression" e_reg (encoders (glob w))))
      fn.
Proof. apply load_run_complete. Qed.

Lemma load_success_witness :
  fst (load_models_and_processors Sample.env Sample.fresh) = Ok true /\
  glob (snd (load_models_and_processors Sample.env Sample.fresh)) = Sample.loaded.
Proof.
  apply (load_success Sample.env Sample.fresh
           ("feature_names.json" :: expected)%string
           Sample.regressor Sample.classifier Sample.unit_scaler Sample.unit_scaler
           Sample.task_encoders Sample.task_encoders Sample.features);
    reflexivity.
Defined.

(** The run of the loader when the second unpickling fails. *)
Lemma load_run_midway env w files m_reg e :
  missing_files env = [] ->
  os_path_exists env (MODEL_DIR env) = true ->
  os_listdir env (MODEL_DIR env) = Ok files ->
  load_estimator env (os_path_join (MODEL_DIR env) "best_regression_model_linear.pkl")
    = Ok m_reg ->
  load_estimator env (os_path_join (MODEL_DIR env) "best_classification_model_logistic.pkl")
    = Raise e ->
  fst (load_models_and_processors env w) = Ok false /\
  glob (snd (load_models_and_processors env w))
  = set_model "regression" m_reg (glob w).
Proof.
  intros Hmiss Hdir Hls H1 H2.
  unfold load_models_and_processors, try_except, load_body, mbind, print, lift, ret,
    update_globals.
  cbn [fst snd glob stdout]. rewrite Hdir, Hls. cbn [fst snd glob stdout].
  rewrite Hmiss. cbn [truthy]. rewrite H1, H2.
  split; reflexivity.
Qed.

(** A failure after the first assignment leaves what was assigned: when the
    classification model does not unpickle, the loader returns [False] and
    [models] has gained its regression entry, the other dictionaries being
    as before. *)
Theorem load_failure_midway_keeps_assignments env w files m_reg e :
  missing_files env = [] ->
  os_path_exists env (MODEL_DIR env) = true ->
  os_listdir env (MODEL_DIR env) = Ok files ->
  load_estimator env (os_path_join (MODEL_DIR env) "best_regression_model_linear.pkl")
    = Ok m_reg ->
  load_estimator env (os_path_join (MODEL_DIR env) "best_classification_model_logistic.pkl")
    = Raise e ->
  fst (load_models_and_processors env w) = Ok false /\
  glob (snd (load_models_and_processors env w))
  = set_model "regression" m_reg (glob w).
Proof. apply load_run_midway. Qed.

Lemma load_failure_midway_keeps_assignments_witness :
  fst (load_models_and_processors Sample.env_corrupt_classifier Sample.fresh) = Ok false /\
  glob (snd (load_models_and_processors Sample.env_corrupt_classifier Sample.fresh))
  = mk_globals [("regression", Sample.regressor)]%string [] [] [].
Proof.
  apply (load_failure_midway_keeps_assignments Sample.env_corrupt_classifier Sample.fresh
           ("feature_names.json" :: expected)%string Sample.regressor
           (mk_exn ValueError "unsupported pickle protocol"));
    reflexivity.
Defined.

(** When the lazy load leaves [models] empty the view answers 500 with
    the message Models not loaded, whatever the request. *)
Theorem predict_without_models env req w :
  PyDict.is_empty (models (glob (snd (ensure_loaded env w)))) = true ->
  fst (predict env req w) = Ok (error_response "Models not loaded" 500).
Proof. intros H. now rewrite (predict_unloaded env req w H). Qed.

Lemma predict_without_models_witness :
  fst (predict Sample.env_without_scaler (Ok (Some Sample.site)) Sample.fresh)
  = Ok (error_response "Models not loaded" 500).
Proof.
  apply (predict_without_models Sample.env_without_scaler (Ok (Some Sample.site))
           Sample.fresh).
  reflexivity.
Defined.

(** The view never raises: every exception of its body becomes a 500
    response carrying the exception's [str]. *)
Theorem predict_always_answers env req w :
  exists resp,
    fst (predict env req w) = Ok resp /\
    (status resp = 200 \/ status resp = 400 \/ status resp = 500).
Proof.
  destruct (PyDict.is_empty (models (glob (snd (ensure_loaded env w))))) eqn:Hload.
  - rewrite (predict_unloaded env req w Hload). eexists. split; [reflexivity|]. simpl. auto.
  - rewrite (predict_loaded env req w Hload). cbn [fst].
    destruct (handle env (glob (snd (ensure_loaded env w))) req) as [resp|e] eqn:Hh.
    + exists resp. split; [reflexivity|].
      unfold handle in Hh. destruct req as [json|e]; simpl in Hh; [|discriminate].
      destruct (truthy (missing_fields (input_data_of json))).
      * injection Hh as <-. simpl. auto.
      * destruct (inject_defaults (input_data_of json)) as [r'|]; simpl in Hh;
          [|discriminate].
        destruct (run_models env _ r') as [[[score cls] proba]|]; simpl in Hh;
          [|discriminate].
        left. apply (assemble_status _ _ _ _ Hh).
    + eexists. split; [reflexivity|]. simpl. auto.
Qed.

(** ** More on dictionaries *)

Lemma set_present_same {V : Type} (k : string) (v : V) (d : dict V) :
  PyDict.get k d = Some v -> PyDict.set k v d = d.
Proof.
  induction d as [|[k' v'] d IH]; simpl; [discriminate|].
  destruct (String.eqb k k') eqn:E.
  - apply String.eqb_eq in E. subst k'. now intros [= ->].
  - intros H. now rewrite IH.
Qed.

Lemma keys_set_present {V : Type} (k : string) (v : V) (d : dict V) :
  PyDict.mem k d = true -> PyDict.keys (PyDict.set k v d) = PyDict.keys d.
Proof.
  unfold PyDict.mem, PyDict.keys.
  induction d as [|[k' v'] d IH]; simpl; [discriminate|].
  destruct (String.eqb k k') eqn:E; simpl.
  - apply String.eqb_eq in E. now subst.
  - intros H. now rewrite IH.
Qed.

Lemma mem_set {V : Type} (k k' : string) (v : V) (d : dict V) :
  PyDict.mem k (PyDict.set k' v d) = String.eqb k k' || PyDict.mem k d.
Proof.
  unfold PyDict.mem. destruct (String.eqb k k') eqn:E.
  - apply String.eqb_eq in E. subst. now rewrite get_set_same.
  - apply String.eqb_neq in E. now rewrite get_set_other.
Qed.

(** ** The loader, continued *)

Ltac unfold_io :=
  unfold try_except, mbind, print, lift, ret, update_globals, read_globals;
  cbn [fst snd glob stdout].

(** The loader answers [True] only after the last assignment: then no file
    was missing, both task keys are in [models], [scalers] and [encoders],
    and [feature_names] is the parsed document. *)
Theorem load_true_means_loaded env w :
  fst (load_models_and_processors env w) = Ok true ->
  missing_files env = [] /\
  let g := glob (snd (load_models_and_processors env w)) in
  PyDict.mem "regression" (models g) = true /\
  PyDict.mem "classification" (models g) = true /\
  PyDict.mem "regression" (scalers g) = true /\
  PyDict.mem "classification" (scalers g) = true /\
  PyDict.mem "regression" (encoders g) = true /\
  PyDict.mem "classification" (encoders g) = true /\
  load_json env (os_path_join (BASE_DIR env) "feature_names.json")
  = Ok (feature_names g).
Proof.
  unfold load_models_and_processors, load_body. unfold_io.
  destruct (os_path_exists env (MODEL_DIR env));
    [destruct (os_listdir env (MODEL_DIR env)) as [files|e0]|];
    cbn [fst snd glob stdout]; try discriminate;
    (destruct (truthy (missing_files env)) eqn:Hm; cbn [fst snd glob stdout];
     [discriminate|]);
    apply truthy_false in Hm;
    repeat match goal with
      | |- context [load_estimator env ?p] =>
          destruct (load_estimator env p); cbn [fst snd glob stdout]; try discriminate
      | |- context [load_scaler env ?p] =>
          destruct (load_scaler env p); cbn [fst snd glob stdout]; try discriminate
      | |- context [load_encoders env ?p] =>
          destruct (load_encoders env p); cbn [fst snd glob stdout]; try discriminate
      end;
    (destruct (load_json env (os_path_join (BASE_DIR env) "feature_names.json")) eqn:Hj;
     cbn [fst snd glob stdout]; try discriminate);
    intros _; (split; [exact Hm|]);
    cbn [models scalers encoders feature_names set_model set_scaler set_encoders
           set_feature_names];
    rewrite !mem_set; repeat split; reflexivity.
Qed.

Lemma load_true_means_loaded_witness :
  missing_files Sample.env = [] /\
  let g := glob (snd (load_models_and_processors Sample.env Sample.fresh)) in
  PyDict.mem "regression" (models g) = true /\
  PyDict.mem "classification" (models g) = true /\
  PyDict.mem "regression" (scalers g) = true /\
  PyDict.mem "classification" (scalers g) = true /\
  PyDict.mem "regression" (encoders g) = true /\
  PyDict.mem "classification" (encoders g) = true /\
  load_json Sample.env (os_path_join (BASE_DIR Sample.env) "feature_names.json")
  = Ok (feature_names g).
Proof.
  apply (load_true_means_loaded Sample.env Sample.fresh). reflexivity.
Defined.

(** A successful load writes the same keys a second load writes: loading
    again from the state a successful load left changes none of the four
    dictionaries (values and key order included). *)
Theorem load_twice_is_load_once env w files m_reg m_cls sc_reg sc_cls e_reg e_cls fn :
  missing_files env = [] ->
  os_path_exists env (MODEL_DIR env) = true ->
  os_listdir env (MODEL_DIR env) = Ok files ->
  load_estimator env (os_path_join (MODEL_DIR env) "best_regression_model_linear.pkl")
    = Ok m_reg ->
  load_estimator env (os_path_join (MODEL_DIR env) "best_classification_model_logistic.pkl")
    = Ok m_cls ->
  load_scaler env (os_path_join (MODEL_DIR env) "regression_scaler.pkl") = Ok sc_reg ->
  load_scaler env (os_path_join (MODEL_DIR env) "classification_scaler.pkl") = Ok sc_cls ->
  load_encoders env (os_path_join (MODEL_DIR env) "regression_encoders.pkl") = Ok e_reg ->
  load_encoders env (os_path_join (MODEL_DIR env) "classification_encoders.pkl") = Ok e_cls ->
  load_json env (os_path_join (BASE_DIR env) "feature_names.json") = Ok fn ->
  let w1 := snd (load_models_and_processors env w) in
  fst (load_models_and_processors env w1) = Ok true /\
  glob (snd (load_models_and_processors env w1)) = glob w1.
Proof.
  intros Hmiss Hdir Hls H1 H2 H3 H4 H5 H6 H7 w1.
  destruct (load_run_complete env w files m_reg m_cls sc_reg sc_cls e_reg e_cls fn
              Hmiss Hdir Hls H1 H2 H3 H4 H5 H6 H7) as [_ Hg1].
  destruct (load_run_complete env w1 files m_reg m_cls sc_reg sc_cls e_reg e_cls fn
              Hmiss Hdir Hls H1 H2 H3 H4 H5 H6 H7) as [Hok Hg2].
  split; [exact Hok|]. rewrite Hg2. subst w1. rewrite Hg1.
  cbn [models scalers encoders feature_names].
  assert (Hset : forall (V : Type) (a b : V) (d : dict V),
             PyDict.set "classification" b
               (PyDict.set "regression" a
                  (PyDict.set "classification" b (PyDict.set "regression" a d)))
             = PyDict.set "classification" b (PyDict.set "regression" a d)).
  { intros V a b d.
    rewrite (set_present_same "regression" a).
    - apply set_present_same, get_set_same.
    - rewrite get_set_other by discriminate. apply get_set_same. }
  now rewrite !Hset.
Qed.

Lemma load_twice_is_load_once_witness :
  let w1 := snd (load_models_and_processors Sample.env Sample.fresh) in
  fst (load_models_and_processors Sample.env w1) = Ok true /\
  glob (snd (load_models_and_processors Sample.env w1)) = glob w1.
Proof.
  apply (load_twice_is_load_once Sample.env Sample.fresh
           ("feature_names.json" :: expected)%string
           Sample.regressor Sample.classifier Sample.unit_scaler Sample.unit_scaler
           Sample.task_encoders Sample.task_encoders Sample.features);
    reflexivity.
Defined.

(** ** The predict view and the state *)

Lemma ensure_loaded_warm env w :
  PyDict.is_empty (models (glob w)) = false -> ensure_loaded env w = (Ok tt, w).
Proof.
  intros H. unfold ensure_loaded, mbind, read_globals, ret. now rewrite H.
Qed.

Lemma ensure_loaded_cold env w :
  PyDict.is_empty (models (glob w)) = true ->
  snd (ensure_loaded env w) = snd (load_models_and_processors env w).
Proof.
  intros H. unfold ensure_loaded, mbind, read_globals, ret. rewrite H.
  destruct (load_models_and_processors env w) as [[ok|e] w']; reflexivity.
Qed.

Lemma predict_world env req w : snd (predict env req w) = snd (ensure_loaded env w).
Proof.
  destruct (PyDict.is_empty (models (glob (snd (ensure_loaded env w))))) eqn:H.
  - now rewrite (predict_unloaded env req w H).
  - now rewrite (predict_loaded env req w H).
Qed.

(** The only state the predict view changes is what the loader changes,
    and it calls the loader only when [models] is empty: with a non-empty
    [models] the world after the request is the world before it (no
    reload, nothing printed), whatever the request and its outcome; with
    an empty [models] the world after the request is the one the loader
    leaves. *)
Theorem predict_changes_state_only_by_loading env req w :
  (PyDict.is_empty (models (glob w)) = false -> snd (predict env req w) = w) /\
  (PyDict.is_empty (models (glob w)) = true ->
   snd (predict env req w) = snd (load_models_and_processors env w)).
Proof.
  rewrite predict_world. split; intros H.
  - now rewrite (ensure_loaded_warm env w H).
  - now apply ensure_loaded_cold.
Qed.

Lemma predict_changes_state_only_by_loading_witness :
  snd (predict Sample.env (Ok (Some Sample.partial_site)) Sample.warm) = Sample.warm.
Proof.
  apply (proj1 (predict_changes_state_only_by_loading Sample.env
                  (Ok (Some Sample.partial_site)) Sample.warm)).
  reflexivity.
Defined.



(** When reading the request body raises (no JSON content type, malformed
    JSON), the view with models loaded answers 500 with the exception's
    message; it does not answer 400. *)
Theorem predict_unreadable_body env e w :
  PyDict.is_empty (models (glob (snd (ensure_loaded env w)))) = false ->
  fst (predict env (Raise e) w) = Ok (error_response (exn_str e) 500).
Proof.
  intros Hload. rewrite (predict_loaded env _ w Hload). reflexivity.
Qed.

Lemma predict_unreadable_body_witness :
  fst (predict Sample.env
         (Raise (mk_exn HTTPException "415 Unsupported Media Type")) Sample.warm)
  = Ok (error_response "415 Unsupported Media Type" 500).
Proof.
  apply (predict_unreadable_body Sample.env
           (mk_exn HTTPException "415 Unsupported Media Type") Sample.warm).
  reflexivity.
Defined.



(** A preprocessing failure reaches the caller as a 500 whose error is the
    wrapped message: the regression pass is tried first, the classification
    pass only when the regression pass returned. *)
Theorem predict_reports_preprocessing_failure env (r r' : record) w :
  PyDict.is_empty (models (glob (snd (ensure_loaded env w)))) = false ->
  missing_fields r = [] ->
  inject_defaults r = Ok r' ->
  let g := glob (snd (ensure_loaded env w)) in
  (forall e, preprocess_body env g r' "regression" = Raise e ->
             fst (predict env (Ok (Some r)) w)
             = Ok (error_response ("Error preprocessing data: " ++ exn_str e) 500)) /\
  (forall X e, preprocess_body env g r' "regression" = Ok X ->
               preprocess_body env g r' "classification" = Raise e ->
               fst (predict env (Ok (Some r)) w)
               = Ok (error_response ("Error preprocessing data: " ++ exn_str e) 500)).
Proof.
  intros Hload Hmiss Hdef g.
  rewrite (predict_loaded env _ w Hload), (handle_complete env _ r Hmiss), Hdef.
  cbn [Py.bind fst]. fold g. unfold run_models, preprocess_input_data.
  split.
  - intros e ->. reflexivity.
  - intros X e -> ->. reflexivity.
Qed.

Lemma predict_reports_preprocessing_failure_witness :
  fst (predict Sample.env (Ok (Some Sample.site))
         (mk_world (set_model "regression" Sample.regressor initial_globals) []))
  = Ok (error_response
          "Error preprocessing data: Missing encoders/scalers/features for task 'regression'"
          500).
Proof.
  destruct (predict_reports_preprocessing_failure Sample.env Sample.site
              (Sample.site ++
               [ ("Country", VStr "USA"); ("Flood_Risk_Index", VFloat 0.3);
                 ("Drought_Risk_Index", VFloat 0.3); ("Temperature_C", VFloat 24.5);
                 ("Annual_Rainfall_mm", VFloat 1000.0); ("Soil_Erosion_Risk", VFloat 0.2);
                 ("Current_Tourist_Count", VFloat 300.0);
                 ("Human_Activity_Index", VFloat 0.4);
                 ("Conservation_Investment_USD", VFloat 100000.0);
                 ("Climate_Risk_Score", VFloat 0.4) ]%string%float)
              (mk_world (set_model "regression" Sample.regressor initial_globals) [])
              eq_refl eq_refl eq_refl) as [H _].
  apply (H (mk_exn Exception "Missing encoders/scalers/features for task 'regression'")).
  reflexivity.
Defined.

(** A load that fails after the first assignment is never retried.  When
    the import-time load unpickles the regression model and then fails on
    the classification model, [models] is left non-empty: from then on
    every request leaves the state as it is (the loader is not called
    again), and every request that passes validation and default
    injection is answered 500 with the missing-artifacts message, even
    after the files are repaired. *)
Theorem partial_load_is_never_retried env env' files m_reg e :
  missing_files env = [] ->
  os_path_exists env (MODEL_DIR env) = true ->
  os_listdir env (MODEL_DIR env) = Ok files ->
  load_estimator env (os_path_join (MODEL_DIR env) "best_regression_model_linear.pkl")
    = Ok m_reg ->
  load_estimator env (os_path_join (MODEL_DIR env) "best_classification_model_logistic.pkl")
    = Raise e ->
  let w1 := startup env in
  glob w1 = set_model "regression" m_reg initial_globals /\
  (forall req, snd (predict env' req w1) = w1) /\
  (forall r r' : record,
      missing_fields r = [] ->
      inject_defaults r = Ok r' ->
      fst (predict env' (Ok (Some r)) w1)
      = Ok (error_response
              "Error preprocessing data: Missing encoders/scalers/features for task 'regression'"
              500)).
Proof.
  intros Hmiss Hdir Hls H1 H2 w1.
  assert (Hg : glob w1 = set_model "regression" m_reg initial_globals).
  { subst w1. unfold startup. rewrite ensure_loaded_cold by reflexivity.
    apply (proj2 (load_run_midway env (mk_world initial_globals []) files m_reg e
                    Hmiss Hdir Hls H1 H2)). }
  assert (Hwarm : PyDict.is_empty (models (glob w1)) = false) by (now rewrite Hg).
  split; [exact Hg|]. split.
  - intros req. rewrite predict_world. now rewrite (ensure_loaded_warm env' w1 Hwarm).
  - intros r r' Hm Hd.
    assert (Hload : PyDict.is_empty (models (glob (snd (ensure_loaded env' w1)))) = false)
      by (now rewrite (ensure_loaded_warm env' w1 Hwarm)).
    rewrite (predict_loaded env' _ w1 Hload), (handle_complete env' _ r Hm), Hd.
    rewrite (ensure_loaded_warm env' w1 Hwarm). cbn [Py.bind fst snd]. rewrite Hg.
    reflexivity.
Qed.

Lemma partial_load_is_never_retried_witness :
  let w1 := startup Sample.env_corrupt_classifier in
  glob w1 = set_model "regression" Sample.regressor initial_globals /\
  (forall req, snd (predict Sample.env req w1) = w1) /\
  (forall r r' : record,
      missing_fields r = [] ->
      inject_defaults r = Ok r' ->
      fst (predict Sample.env (Ok (Some r)) w1)
      = Ok (error_response
              "Error preprocessing data: Missing encoders/scalers/features for task 'regression'"
              500)).
Proof.
  apply (partial_load_is_never_retried Sample.env_corrupt_classifier Sample.env
           ("feature_names.json" :: expected)%string Sample.regressor
           (mk_exn ValueError "unsupported pickle protocol"));
    reflexivity.
Defined.

(** ** Health after a load *)

(** After a load that succeeds on a fresh process the health view lists
    regression and classification, in that order, for models, encoders and
    scalers, and the keys of the feature-name document as feature sets;
    it is healthy exactly when that document is not empty.  With an empty
    document the loader has returned [True] and the service is
    unhealthy. *)
Theorem health_after_load env w files m_reg m_cls sc_reg sc_cls e_reg e_cls fn :
  glob w = initial_globals ->
  missing_files env = [] ->
  os_path_exists env (MODEL_DIR env) = true ->
  os_listdir env (MODEL_DIR env) = Ok files ->
  load_estimator env (os_path_join (MODEL_DIR env) "best_regression_model_linear.pkl")
    = Ok m_reg ->
  load_estimator env (os_path_join (MODEL_DIR env) "best_classification_model_logistic.pkl")
    = Ok m_cls ->
  load_scaler env (os_path_join (MODEL_DIR env) "regression_scaler.pkl") = Ok sc_reg ->
  load_scaler env (os_path_join (MODEL_DIR env) "classification_scaler.pkl") = Ok sc_cls ->
  load_encoders env (os_path_join (MODEL_DIR env) "regression_encoders.pkl") = Ok e_reg ->
  load_encoders env (os_path_join (MODEL_DIR env) "classification_encoders.pkl") = Ok e_cls ->
  load_json env (os_path_join (BASE_DIR env) "feature_names.json") = Ok fn ->
  let w1 := snd (load_models_and_processors env w) in
  exists resp,
    health_check w1 = (Ok resp, w1) /\
    PyDict.get "available_models" (body resp)
    = Some (VList [VStr "regression"; VStr "classification"]) /\
    PyDict.get "available_encoders" (body resp)
    = Some (VList [VStr "regression"; VStr "classification"]) /\
    PyDict.get "available_scalers" (body resp)
    = Some (VList [VStr "regression"; VStr "classification"]) /\
    PyDict.get "available_feature_sets" (body resp)
    = Some (VList (map VStr (PyDict.keys fn))) /\
    (PyDict.get "status" (body resp) = Some (VStr "healthy") <-> fn <> []) /\
    (PyDict.get "status" (body resp) = Some (VStr "unhealthy") <-> fn = []).
Proof.
  intros Hfresh Hmiss Hdir Hls H1 H2 H3 H4 H5 H6 H7 w1.
  destruct (load_run_complete env w files m_reg m_cls sc_reg sc_cls e_reg e_cls fn
              Hmiss Hdir Hls H1 H2 H3 H4 H5 H6 H7) as [_ Hg].
  fold w1 in Hg. rewrite Hfresh in Hg.
  unfold health_check, mbind, read_globals, ret. rewrite Hg.
  eexists. split; [reflexivity|].
  cbn -[String.eqb]. repeat (split; [reflexivity|]).
  destruct fn; cbn; split; split; congruence.
Qed.

Lemma health_after_load_witness :
  (exists resp,
      health_check (startup Sample.env) = (Ok resp, startup Sample.env) /\
      PyDict.get "status" (body resp) = Some (VStr "healthy")) /\
  (exists resp,
      health_check (startup Sample.env_empty_features)
      = (Ok resp, startup Sample.env_empty_features) /\
      PyDict.get "status" (body resp) = Some (VStr "unhealthy")).
Proof.
  split.
  - destruct (health_after_load Sample.env Sample.fresh
                ("feature_names.json" :: expected)%string
                Sample.regressor Sample.classifier Sample.unit_scaler Sample.unit_scaler
                Sample.task_encoders Sample.task_encoders Sample.features
                eq_refl eq_refl eq_refl eq_refl eq_refl eq_refl eq_refl eq_refl eq_refl
                eq_refl eq_refl) as (resp & Hrun & _ & _ & _ & _ & Hhealthy & _).
    exists resp. split; [exact Hrun|]. apply Hhealthy. discriminate.
  - destruct (health_after_load Sample.env_empty_features Sample.fresh
                ("feature_names.json" :: expected)%string
                Sample.regressor Sample.classifier Sample.unit_scaler Sample.unit_scaler
                Sample.task_encoders Sample.task_encoders PyDict.empty
                eq_refl eq_refl eq_refl eq_refl eq_refl eq_refl eq_refl eq_refl eq_refl
                eq_refl eq_refl) as (resp & Hrun & _ & _ & _ & _ & _ & Hunhealthy).
    exists resp. split; [exact Hrun|]. apply Hunhealthy. reflexivity.
Defined.

(** ** Default injection on any record *)

Lemma get_setdefault (k k0 : string) (v0 : pyval) (r : record) :
  PyDict.get k (PyDict.setdefault k0 v0 r)
  = match PyDict.get k r with
    | Some v => Some v
    | None => if String.eqb k k0 then Some v0 else None
    end.
Proof.
  unfold PyDict.setdefault, PyDict.mem.
  destruct (PyDict.get k0 r) as [v|] eqn:E0.
  - destruct (PyDict.get k r) eqn:E; [reflexivity|].
    destruct (String.eqb k k0) eqn:Ek; [|reflexivity].
    apply String.eqb_eq in Ek. subst. congruence.
  - rewrite get_app. simpl. destruct (PyDict.get k r); reflexivity.
Qed.

Lemma get_setdefaults (ds : dict pyval) (r : record) (k : string) :
  PyDict.get k (setdefaults ds r)
  = match PyDict.get k r with
    | Some v => Some v
    | None => PyDict.get k ds
    end.
Proof.
  unfold setdefaults. revert r.
  induction ds as [|[k0 v0] ds IH]; intros r; simpl.
  - destruct (PyDict.get k r); reflexivity.
  - rewrite IH, get_setdefault.
    destruct (PyDict.get k r); [reflexivity|].
    destruct (String.eqb k k0); reflexivity.
Qed.

Lemma setdefaults_extends (ds : dict pyval) (r : record) :
  exists added, setdefaults ds r = r ++ added.
Proof.
  unfold setdefaults. revert r.
  induction ds as [|[k0 v0] ds IH]; intros r; simpl.
  - exists []. now rewrite app_nil_r.
  - unfold PyDict.setdefault at 2. destruct (PyDict.mem k0 r).
    + apply IH.
    + destruct (IH (r ++ [(k0, v0)])) as [added Hadd].
      exists ((k0, v0) :: added). rewrite Hadd, <- app_assoc. reflexivity.
Qed.

Lemma defaults_keys (r : record) ds : defaults r = Ok ds -> PyDict.keys ds = optional.
Proof.
  unfold defaults.
  destruct (PyDict.getitem "Tourist_Capacity_Limit" r); simpl; [|discriminate].
  destruct (mul_float a 0.6); simpl; [|discriminate].
  intros [= <-]. reflexivity.
Qed.

(** Default injection on any record it accepts, whatever fields the caller
    sent: a value the caller supplied is never replaced; all ten optional
    fields are present afterwards; no other key is added; the caller's
    fields keep their places at the front; and injecting again changes
    nothing. *)
Theorem inject_defaults_keeps_supplied_values (r r' : record) :
  inject_defaults r = Ok r' ->
  (forall k v, PyDict.get k r = Some v -> PyDict.get k r' = Some v) /\
  (forall k, In k optional -> PyDict.mem k r' = true) /\
  (forall k, PyDict.mem k r' = true -> PyDict.mem k r = true \/ In k optional) /\
  (exists added, r' = r ++ added) /\
  inject_defaults r' = Ok r'.
Proof.
  unfold inject_defaults.
  destruct (defaults r) as [ds|] eqn:Hds; cbn [Py.bind]; [|discriminate].
  intros [= <-].
  pose proof (defaults_keys r ds Hds) as Hkeys.
  assert (Hkeep : forall k v, PyDict.get k r = Some v ->
                              PyDict.get k (setdefaults ds r) = Some v).
  { intros k v Hk. now rewrite get_setdefaults, Hk. }
  split; [exact Hkeep|]. split; [|split; [|split]].
  - intros k Hk. unfold PyDict.mem. rewrite get_setdefaults.
    destruct (PyDict.get k r); [reflexivity|].
    rewrite <- Hkeys in Hk. apply mem_keys in Hk. exact Hk.
  - intros k. unfold PyDict.mem at 1 2. rewrite get_setdefaults.
    destruct (PyDict.get k r); [auto|].
    intros Hk. right. rewrite <- Hkeys. apply mem_keys. exact Hk.
  - apply setdefaults_extends.
  - assert (Hsame : defaults (setdefaults ds r) = Ok ds).
    { revert Hds. unfold defaults, PyDict.getitem, PyDict.get_default.
      destruct (PyDict.get "Tourist_Capacity_Limit" r) as [cap|] eqn:Hcap;
        [|discriminate].
      rewrite (Hkeep _ _ Hcap). rewrite get_setdefaults.
      destruct (PyDict.get "Average_Temperature_C" r) as [avg|] eqn:Havg.
      - auto.
      - simpl. destruct (mul_float cap 0.6); simpl; [|discriminate].
        intros [= <-]. reflexivity. }
    rewrite Hsame. cbn [Py.bind]. f_equal. apply setdefaults_present.
    intros k Hk. unfold PyDict.mem. rewrite get_setdefaults.
    destruct (PyDict.get k r); [reflexivity|]. apply mem_keys in Hk. exact Hk.
Qed.

Lemma inject_defaults_keeps_supplied_values_witness :
  exists r',
    inject_defaults Sample.site_with_country = Ok r' /\
    PyDict.get "Country" r' = Some (VStr "India") /\
    PyDict.get "Flood_Risk_Index" r' = Some (VFloat 0.9) /\
    PyDict.get "Drought_Risk_Index" r' = Some (VFloat 0.3) /\
    inject_defaults r' = Ok r'.
Proof.
  eexists. split; [reflexivity|].
  split; [|split; [|split]].
  - apply (proj1 (inject_defaults_keeps_supplied_values Sample.site_with_country _ eq_refl)).
    reflexivity.
  - reflexivity.
  - reflexivity.
  - reflexivity.
Defined.


(** ** Risk level and class probabilities, continued *)

(** A NaN score compares false with both thresholds and is labelled
    High. *)
Theorem risk_level_of_nan (score : float) :
  PrimFloat.is_nan score = true -> risk_level (SFloat score) = "High"%string.
Proof.
  intros Hnan. unfold risk_level, scalar_lt_float. cbn [float_of_scalar].
  destruct (score <? 0.33)%float eqn:E1.
  - apply ltb_not_nan in E1. congruence.
  - destruct (score <? 0.67)%float eqn:E2; [|reflexivity].
    apply ltb_not_nan in E2. congruence.
Qed.

Lemma risk_level_of_nan_witness : risk_level (SFloat nan) = "High"%string.
Proof. apply (risk_level_of_nan nan). reflexivity. Defined.

Lemma risk_level_rank_exact (score : float) (v : Q) :
  float_value score = Some v ->
  level_rank (risk_level (SFloat score))
  = if Qlt_le_dec v (33 # 100) then 0
    else if Qlt_le_dec v (67 # 100) then 1 else 2.
Proof.
  intros Hv.
  pose proof (ltb_lower_exact score v Hv) as L1.
  pose proof (ltb_upper_exact score v Hv) as L2.
  unfold risk_level, scalar_lt_float. cbn [float_of_scalar].
  destruct (Qlt_le_dec v (33 # 100)) as [H1|H1];
    destruct (score <? 0.33)%float eqn:E1.
  - reflexivity.
  - apply L1 in H1. discriminate.
  - assert (v < 33 # 100)%Q by (apply L1; reflexivity). lra.
  - destruct (Qlt_le_dec v (67 # 100)) as [H2|H2];
      destruct (score <? 0.67)%float eqn:E2.
    + reflexivity.
    + apply L2 in H2. discriminate.
    + assert (v < 67 # 100)%Q by (apply L2; reflexivity). lra.
    + reflexivity.
Qed.

(** The risk level never goes down when the score goes up: for finite
    scores, a score that is at most another gets a level that is at most
    the other's, in the order Low, Medium, High. *)
Theorem risk_level_monotone (s1 s2 : float) (v1 v2 : Q) :
  float_value s1 = Some v1 ->
  float_value s2 = Some v2 ->
  (v1 <= v2)%Q ->
  level_rank (risk_level (SFloat s1)) <= level_rank (risk_level (SFloat s2)).
Proof.
  intros H1 H2 Hle.
  rewrite (risk_level_rank_exact s1 v1 H1), (risk_level_rank_exact s2 v2 H2).
  destruct (Qlt_le_dec v1 (33 # 100)), (Qlt_le_dec v2 (33 # 100)),
    (Qlt_le_dec v1 (67 # 100)), (Qlt_le_dec v2 (67 # 100)); try lia; lra.
Qed.

Lemma risk_level_monotone_witness :
  level_rank (risk_level (SFloat 0.25)) <= level_rank (risk_level (SFloat 0.5)).
Proof.
  eapply (risk_level_monotone 0.25 0.5).
  - reflexivity.
  - reflexivity.
  - unfold Qle. vm_compute. discriminate.
Defined.

(** With fewer than three probabilities the comprehension raises at the
    first index the vector does not have; the message names that index and
    the vector's size, and no partial map is returned. *)
Theorem risk_probabilities_out_of_bounds (proba : list float) :
  len proba < 3 ->
  risk_probabilities proba
  = Raise (mk_exn IndexError
             ("index " ++ str_int (len proba) ++ " is out of bounds for axis 0 with size "
              ++ str_int (len proba))).
Proof.
  intros Hlen.
  destruct proba as [|p0 [|p1 [|p2 rest]]]; try reflexivity.
  unfold len in Hlen. simpl in Hlen. lia.
Qed.

Lemma risk_probabilities_out_of_bounds_witness :
  risk_probabilities []
  = Raise (mk_exn IndexError "index 0 is out of bounds for axis 0 with size 0").
Proof. apply (risk_probabilities_out_of_bounds []). reflexivity. Defined.





(** ** Preprocessing, column by column *)

Lemma encode_column_cells env task_encoders feat (df : record) :
  exists df',
    encode_column env task_encoders feat df = Ok df' /\
    PyDict.keys df' = PyDict.keys df /\
    forall k, PyDict.get k df'
              = if String.eqb k feat
                then encoded_cell env task_encoders feat (PyDict.get feat df)
                else PyDict.get k df.
Proof.
  unfold encode_column, encoded_cell, PyDict.getitem.
  destruct (PyDict.mem feat df) eqn:Hm; unfold PyDict.mem in Hm;
    destruct (PyDict.get feat df) as [x|] eqn:Hx; try discriminate;
    destruct (PyDict.get feat task_encoders) as [encoder|] eqn:He;
    unfold PyDict.mem; rewrite ?He; cbn [andb Py.bind].
  - rewrite encode_value_code. cbn [Py.bind]. eexists. split; [reflexivity|].
    split; [apply keys_set_present; unfold PyDict.mem; now rewrite Hx|].
    intros k. destruct (String.eqb k feat) eqn:E.
    + apply String.eqb_eq in E. subst. apply get_set_same.
    + apply String.eqb_neq in E. now apply get_set_other.
  - exists df. repeat split. intros k. destruct (String.eqb k feat) eqn:E; [|reflexivity].
    apply String.eqb_eq in E. now subst.
  - exists df. repeat split. intros k. destruct (String.eqb k feat) eqn:E; [|reflexivity].
    apply String.eqb_eq in E. now subst.
  - exists df. repeat split. intros k. destruct (String.eqb k feat) eqn:E; [|reflexivity].
    apply String.eqb_eq in E. now subst.
Qed.

Lemma existsb_eqb_In (k : string) (l : list string) :
  existsb (String.eqb k) l = true <-> In k l.
Proof.
  rewrite existsb_exists. split.
  - intros (x & Hin & E). apply String.eqb_eq in E. now subst.
  - intros H. exists k. split; [exact H|apply String.eqb_refl].
Qed.

Lemma encode_each_cells env task_encoders (l : list string) :
  NoDup l ->
  forall df : record,
  exists df',
    for_each (encode_column env task_encoders) l df = Ok df' /\
    PyDict.keys df' = PyDict.keys df /\
    forall k, PyDict.get k df'
              = if existsb (String.eqb k) l
                then encoded_cell env task_encoders k (PyDict.get k df)
                else PyDict.get k df.
Proof.
  induction 1 as [|a l Hnotin Hnd IH]; intros df.
  - exists df. repeat split.
  - destruct (encode_column_cells env task_encoders a df) as (d1 & E1 & K1 & G1).
    destruct (IH d1) as (df' & E' & K' & G').
    exists df'. cbn [for_each]. rewrite E1. cbn [Py.bind].
    split; [exact E'|]. split; [congruence|].
    intros k. rewrite G', !G1. cbn [existsb].
    destruct (String.eqb k a) eqn:Ea.
    + apply String.eqb_eq in Ea. subst k. cbn [orb].
      destruct (existsb (String.eqb a) l) eqn:El; [|reflexivity].
      apply existsb_eqb_In in El. contradiction.
    + cbn [orb]. reflexivity.
Qed.

Lemma categorical_nodup : NoDup categorical.
Proof. unfold categorical. repeat constructor; simpl; intuition discriminate. Qed.

(** The encoding loop never raises and touches nothing but the three
    categorical columns: the record keeps its columns in their order, a
    column outside the three, or one the task has no encoder for, keeps
    its value, and a categorical column with an encoder ends as the code
    of [str] of its value, whatever the type of that value. *)
Theorem encoding_touches_only_categoricals env task_encoders (df : record) :
  exists df',
    encode_categoricals env task_encoders df = Ok df' /\
    PyDict.keys df' = PyDict.keys df /\
    (forall k, ~ In k categorical -> PyDict.get k df' = PyDict.get k df) /\
    (forall k, PyDict.get k task_encoders = None -> PyDict.get k df' = PyDict.get k df) /\
    (forall k x encoder,
        In k categorical ->
        PyDict.get k df = Some x ->
        PyDict.get k task_encoders = Some encoder ->
        PyDict.get k df' = Some (VInt (code_of encoder (py_str env x)))).
Proof.
  destruct (encode_each_cells env task_encoders categorical categorical_nodup df)
    as (df' & E & K & G).
  exists df'. split; [exact E|]. split; [exact K|]. split; [|split].
  - intros k Hk. rewrite G.
    destruct (existsb (String.eqb k) categorical) eqn:Ex; [|reflexivity].
    apply existsb_eqb_In in Ex. contradiction.
  - intros k Hk. rewrite G. unfold encoded_cell. rewrite Hk.
    destruct (existsb (String.eqb k) categorical), (PyDict.get k df); reflexivity.
  - intros k x encoder Hk Hx He. rewrite G.
    apply existsb_eqb_In in Hk. rewrite Hk. unfold encoded_cell. now rewrite Hx, He.
Qed.

Lemma coerce_protected_cases env (df : record) :
  coerce_protected env df
  = match PyDict.get "Protected_Area_Status" df with
    | None => Ok df
    | Some x =>
        match astype_int env x with
        | Ok v => Ok (PyDict.set "Protected_Area_Status" v df)
        | Raise e => Raise e
        end
    end.
Proof.
  unfold coerce_protected, PyDict.mem, PyDict.getitem.
  destruct (PyDict.get "Protected_Area_Status" df); [|reflexivity].
  cbn [Py.bind]. destruct (astype_int env p); reflexivity.
Qed.

Lemma select_ext (df df' : record) cols :
  (forall c, In c cols -> PyDict.get c df = PyDict.get c df') ->
  select df cols = select df' cols.
Proof.
  induction cols as [|c cols IH]; intros H; [reflexivity|].
  cbn [select]. unfold PyDict.getitem.
  rewrite (H c) by (left; reflexivity).
  rewrite IH by (intros c' Hc'; apply H; right; exact Hc').
  reflexivity.
Qed.

Lemma select_present (df : record) cols :
  (forall c, In c cols -> PyDict.mem c df = true) ->
  exists features,
    select df cols = Ok features /\
    map fst features = cols /\
    Forall (fun kv => PyDict.get (fst kv) df = Some (snd kv)) features.
Proof.
  induction cols as [|c cols IH]; intros H.
  - exists []. repeat split. constructor.
  - destruct IH as (rest & Hsel & Hfst & Hall);
      [intros c' Hc'; apply H; right; exact Hc'|].
    assert (Hc : PyDict.mem c df = true) by (apply H; left; reflexivity).
    apply mem_true_get in Hc. destruct Hc as [v Hv].
    exists ((c, v) :: rest). cbn [select]. unfold PyDict.getitem.
    rewrite Hv, Hsel. cbn [Py.bind]. split; [reflexivity|]. split.
    + cbn [map fst]. now rewrite Hfst.
    + constructor; [exact Hv|exact Hall].
Qed.

Lemma missing_columns_ext (df df' : record) cols :
  (forall c, In c cols -> PyDict.get c df = PyDict.get c df') ->
  filter (fun c => negb (PyDict.mem c df)) cols
  = filter (fun c => negb (PyDict.mem c df')) cols.
Proof.
  intros H. apply filter_ext_in. intros c Hc. unfold PyDict.mem. now rewrite (H c Hc).
Qed.

(** Preprocessing reads only the columns the task lists and the
    protected-area column: two records that agree on those get the same
    result (the same matrix or the same exception), whatever else they
    hold. *)
Theorem preprocessing_ignores_unlisted_fields env g (data data' : record) task_type cols :
  PyDict.get (features_key task_type) (feature_names g) = Some cols ->
  (forall c, In c cols -> PyDict.get c data = PyDict.get c data') ->
  PyDict.get "Protected_Area_Status" data = PyDict.get "Protected_Area_Status" data' ->
  preprocess_input_data env g data task_type
  = preprocess_input_data env g data' task_type.
Proof.
  intros Hcols Hagree Hpas.
  enough (Hbody : preprocess_body env g data task_type
                  = preprocess_body env g data' task_type)
    by (unfold preprocess_input_data; now rewrite Hbody).
  unfold preprocess_body.
  destruct (PyDict.is_empty (models g)); [reflexivity|].
  destruct (negb (PyDict.mem task_type (encoders g))
            || negb (PyDict.mem task_type (scalers g))
            || negb (PyDict.mem (features_key task_type) (feature_names g)));
    [reflexivity|].
  cbv zeta. destruct (PyDict.getitem task_type (encoders g)) as [encs|]; [|reflexivity].
  cbn [Py.bind]. unfold encode_categoricals.
  destruct (encode_each_cells env encs categorical categorical_nodup data)
    as (d1 & E1 & _ & G1).
  destruct (encode_each_cells env encs categorical categorical_nodup data')
    as (d1' & E1' & _ & G1').
  rewrite E1, E1'. cbn [Py.bind].
  assert (Hd1 : forall c, In c cols -> PyDict.get c d1 = PyDict.get c d1').
  { intros c Hc. rewrite G1, G1', (Hagree c Hc). reflexivity. }
  assert (Hp1 : PyDict.get "Protected_Area_Status" d1
                = PyDict.get "Protected_Area_Status" d1').
  { rewrite G1, G1', Hpas. reflexivity. }
  unfold select_and_scale. rewrite !coerce_protected_cases, <- Hp1.
  assert (Hrest : forall d2 d2' : record,
             (forall c, In c cols -> PyDict.get c d2 = PyDict.get c d2') ->
             (cols0 <- PyDict.getitem (features_key task_type) (feature_names g) ;;
              let missing := filter (fun c => negb (PyDict.mem c d2)) cols0 in
              if truthy missing
              then Raise (mk_exn Exception
                            ("Missing input features: " ++ repr_list missing)%string)
              else
                features <- select d2 cols0 ;;
                sc <- PyDict.getitem task_type (scalers g) ;;
                scaler_transform sc features)%result
             = (cols0 <- PyDict.getitem (features_key task_type) (feature_names g) ;;
                let missing := filter (fun c => negb (PyDict.mem c d2')) cols0 in
                if truthy missing
                then Raise (mk_exn Exception
                              ("Missing input features: " ++ repr_list missing)%string)
                else
                  features <- select d2' cols0 ;;
                  sc <- PyDict.getitem task_type (scalers g) ;;
                  scaler_transform sc features)%result).
  { intros d2 d2' H2. unfold PyDict.getitem at 1 3. rewrite Hcols. cbn [Py.bind]. cbv zeta.
    rewrite (missing_columns_ext d2 d2' cols H2), (select_ext d2 d2' cols H2).
    reflexivity. }
  destruct (PyDict.get "Protected_Area_Status" d1) as [x|].
  - destruct (astype_int env x) as [v|e]; [|reflexivity]. cbn [Py.bind].
    apply Hrest. intros c Hc.
    destruct (String.eqb c "Protected_Area_Status") eqn:E.
    + apply String.eqb_eq in E. subst c. now rewrite !get_set_same.
    + apply String.eqb_neq in E. rewrite !get_set_other by exact E. now apply Hd1.
  - cbn [Py.bind]. apply Hrest. exact Hd1.
Qed.

Lemma preprocessing_ignores_unlisted_fields_witness :
  preprocess_input_data Sample.env Sample.loaded
    (Sample.annotated_site ++ [ ("Country", VStr "USA");
                                ("Current_Tourist_Count", VFloat 300.0);
                                ("Temperature_C", VFloat 24.5) ]%string%float)
    "regression"
  = preprocess_input_data Sample.env Sample.loaded
      (Sample.site ++ [ ("Country", VStr "USA");
                        ("Current_Tourist_Count", VFloat 300.0);
                        ("Temperature_C", VFloat 24.5) ]%string%float)
      "regression".
Proof.
  apply (preprocessing_ignores_unlisted_fields Sample.env Sample.loaded _ _ "regression"
           Sample.columns).
  - reflexivity.
  - intros c Hc. simpl in Hc.
    repeat (destruct Hc as [<-|Hc]; [reflexivity|]). destruct Hc.
  - reflexivity.
Defined.

Lemma prepared_cell_present env task_encoders (data : record) c :
  PyDict.mem c data = true -> exists v, prepared_cell env task_encoders data c = Some v.
Proof.
  intros H. apply mem_true_get in H. destruct H as [x Hx].
  unfold prepared_cell, encoded_cell. rewrite Hx. cbv zeta.
  destruct (existsb (String.eqb c) categorical);
    destruct (PyDict.get c task_encoders);
    destruct (String.eqb c "Protected_Area_Status"); eauto;
    destruct x; eauto.
Qed.

Lemma no_missing_columns (df : record) cols :
  (forall c, In c cols -> PyDict.mem c df = true) ->
  filter (fun c => negb (PyDict.mem c df)) cols = [].
Proof.
  intros H. induction cols as [|c cols IH]; [reflexivity|].
  cbn [filter]. rewrite (H c) by (left; reflexivity). cbn [negb].
  apply IH. intros c' Hc'. apply H. right; exact Hc'.
Qed.

(** The success path of preprocessing.  With the task's artifacts in
    place, a protected-area status that is a boolean (or absent) and every
    listed column present in the record, the scaler is called on exactly
    the listed columns, in the listed order, each holding its prepared
    cell (categorical columns encoded, the boolean as 0 or 1, the others
    as sent); the result is the scaler's matrix, or the scaler's exception
    under the preprocessing prefix. *)
Theorem preprocessing_feeds_scaler_listed_columns env g (data : record) task_type
    task_encoders sc cols :
  models g <> [] ->
  PyDict.get task_type (encoders g) = Some task_encoders ->
  PyDict.get task_type (scalers g) = Some sc ->
  PyDict.get (features_key task_type) (feature_names g) = Some cols ->
  (PyDict.get "Protected_Area_Status" data = None \/
   exists b, PyDict.get "Protected_Area_Status" data = Some (VBool b)) ->
  (forall c, In c cols -> PyDict.mem c data = true) ->
  exists features,
    map fst features = cols /\
    Forall (fun kv => prepared_cell env task_encoders data (fst kv) = Some (snd kv))
      features /\
    preprocess_input_data env g data task_type
    = match scaler_transform sc features with
      | Ok X => Ok X
      | Raise e => Raise (mk_exn Exception ("Error preprocessing data: " ++ exn_str e))
      end.
Proof.
  intros Hne Hencs Hsc Hcols Hpas Hpresent.
  destruct (encode_each_cells env task_encoders categorical categorical_nodup data)
    as (d1 & E1 & _ & G1).
  assert (Hp1 : PyDict.get "Protected_Area_Status" d1
                = PyDict.get "Protected_Area_Status" data) by (rewrite G1; reflexivity).
  assert (Hd2 : exists d2 : record,
             coerce_protected env d1 = Ok d2 /\
             forall k, PyDict.get k d2 = prepared_cell env task_encoders data k).
  { rewrite coerce_protected_cases, Hp1.
    destruct Hpas as [Hnone|[b Hb]].
    - rewrite Hnone. exists d1. split; [reflexivity|].
      intros k. unfold prepared_cell. rewrite <- G1.
      destruct (String.eqb k "Protected_Area_Status") eqn:E; [|reflexivity].
      apply String.eqb_eq in E. subst k. rewrite Hp1, Hnone. reflexivity.
    - rewrite Hb. cbn [astype_int]. eexists. split; [reflexivity|].
      intros k. unfold prepared_cell. rewrite <- G1.
      destruct (String.eqb k "Protected_Area_Status") eqn:E.
      + apply String.eqb_eq in E. subst k. rewrite get_set_same, Hp1, Hb. reflexivity.
      + apply String.eqb_neq in E. now rewrite get_set_other. }
  destruct Hd2 as (d2 & Hcoerce & G2).
  assert (Hall : forall c, In c cols -> PyDict.mem c d2 = true).
  { intros c Hc. unfold PyDict.mem. rewrite G2.
    destruct (prepared_cell_present env task_encoders data c (Hpresent c Hc)) as [v ->].
    reflexivity. }
  destruct (select_present d2 cols Hall) as (features & Hsel & Hfst & Hcells).
  exists features. split; [exact Hfst|]. split.
  - eapply Forall_impl; [|exact Hcells]. intros kv Hkv. now rewrite <- G2.
  - unfold preprocess_input_data, preprocess_body, PyDict.getitem.
    apply is_empty_false in Hne. rewrite Hne.
    assert (He : PyDict.mem task_type (encoders g) = true) by (apply mem_true_get; eauto).
    assert (Hs : PyDict.mem task_type (scalers g) = true) by (apply mem_true_get; eauto).
    assert (Hf : PyDict.mem (features_key task_type) (feature_names g) = true)
      by (apply mem_true_get; eauto).
    rewrite He, Hs, Hf, Hencs. cbn [negb orb Py.bind]. cbv zeta.
    unfold encode_categoricals. rewrite E1. cbn [Py.bind].
    unfold select_and_scale, PyDict.getitem. rewrite Hcoerce. cbn [Py.bind].
    rewrite Hcols. cbn [Py.bind]. cbv zeta.
    rewrite (no_missing_columns d2 cols Hall). cbn [truthy].
    rewrite Hsel. cbn [Py.bind]. rewrite Hsc. cbn [Py.bind].
    destruct (scaler_transform sc features); reflexivity.
Qed.

Lemma preprocessing_feeds_scaler_listed_columns_witness :
  preprocess_input_data Sample.env Sample.loaded
    (Sample.site ++ [ ("Country", VStr "USA");
                      ("Current_Tourist_Count", VFloat 300.0);
                      ("Temperature_C", VFloat 24.5) ]%string%float)
    "regression"
  = Ok [ [12.5; 77.25; 0; 0.75; 1; 900; 1; 1; 300; 24.5]%float ].
Proof.
  destruct (preprocessing_feeds_scaler_listed_columns Sample.env Sample.loaded
              (Sample.site ++ [ ("Country", VStr "USA");
                                ("Current_Tourist_Count", VFloat 300.0);
                                ("Temperature_C", VFloat 24.5) ]%string%float)
              "regression" Sample.task_encoders Sample.unit_scaler Sample.columns)
    as (features & _ & _ & Hrun).
  - discriminate.
  - reflexivity.
  - reflexivity.
  - reflexivity.
  - right. exists true. reflexivity.
  - intros c Hc. simpl in Hc.
    repeat (destruct Hc as [<-|Hc]; [reflexivity|]). destruct Hc.
  - reflexivity.
Defined.

(** ** What a 200 answer means, and what a failed startup leaves *)

(** The view answers 200 only when every step went through: models are
    loaded, the record has every required field, default injection
    returned, both preprocessing passes and the three model calls
    returned, and the class index and probability vector were in range.
    No failure is ever reported with status 200. *)
Theorem predict_200_means_every_step_succeeded env (json : option record) w resp :
  fst (predict env (Ok json) w) = Ok resp ->
  status resp = 200 ->
  let g := glob (snd (predict env (Ok json) w)) in
  PyDict.is_empty (models g) = false /\
  missing_fields (input_data_of json) = [] /\
  exists r' score cls proba,
    inject_defaults (input_data_of json) = Ok r' /\
    run_models env g r' = Ok (score, cls, proba) /\
    assemble score cls proba = Ok resp.
Proof.
  intros Hresp Hstatus. cbv zeta. rewrite predict_world.
  destruct (PyDict.is_empty (models (glob (snd (ensure_loaded env w))))) eqn:Hload.
  - rewrite (predict_unloaded env _ w Hload) in Hresp. cbn [fst] in Hresp.
    injection Hresp as <-. discriminate.
  - rewrite (predict_loaded env _ w Hload) in Hresp. cbn [fst] in Hresp.
    split; [reflexivity|].
    unfold handle in Hresp. cbn [Py.bind] in Hresp. cbv zeta in Hresp.
    destruct (truthy (missing_fields (input_data_of json))) eqn:Ht.
    + injection Hresp as <-. discriminate.
    + apply truthy_false in Ht. split; [exact Ht|].
      destruct (inject_defaults (input_data_of json)) as [r'|e] eqn:Hd;
        cbn [Py.bind] in Hresp.
      * destruct (run_models env (glob (snd (ensure_loaded env w))) r')
          as [[[score cls] proba]|e] eqn:Hr; cbn [Py.bind] in Hresp.
        -- destruct (assemble score cls proba) as [resp'|e] eqn:Ha.
           ++ injection Hresp as <-. exists r', score, cls, proba. auto.
           ++ injection Hresp as <-. discriminate.
        -- injection Hresp as <-. discriminate.
      * injection Hresp as <-. discriminate.
Qed.

Lemma predict_200_means_every_step_succeeded_witness :
  missing_fields Sample.site = [] /\
  exists r' score cls proba,
    inject_defaults Sample.site = Ok r' /\
    run_models Sample.env
      (glob (snd (predict Sample.env (Ok (Some Sample.site)) Sample.fresh))) r'
    = Ok (score, cls, proba).
Proof.
  destruct (predict_200_means_every_step_succeeded Sample.env (Some Sample.site)
              Sample.fresh
              (mk_response 200
                 [ ("success", VBool true);
                   ("climate_risk_score", VFloat 0.5);
                   ("flood_risk_category", VStr "Medium");
                   ("risk_probabilities",
                    VDict [ ("Low", VFloat 0.1); ("Medium", VFloat 0.7);
                            ("High", VFloat 0.2) ]);
                   ("risk_level", VStr "Medium") ]%string%float)
              eq_refl eq_refl)
    as (_ & Hmiss & r' & score & cls & proba & Hd & Hr & _).
  split; [exact Hmiss|]. exists r', score, cls, proba. split; [exact Hd|exact Hr].
Defined.

(** A startup load that finds a file missing leaves the four dictionaries
    empty, so the first request calls the loader again, with the files as
    they are then. *)
Theorem startup_with_missing_file_is_retried env env' req :
  missing_files env <> [] ->
  glob (startup env) = initial_globals /\
  snd (predict env' req (startup env))
  = snd (load_models_and_processors env' (startup env)).
Proof.
  intros Hmiss.
  assert (Hg : glob (startup env) = initial_globals).
  { unfold startup. rewrite ensure_loaded_cold by reflexivity.
    apply (proj2 (load_aborts_on_missing env (mk_world initial_globals []) Hmiss)). }
  split; [exact Hg|].
  rewrite predict_world. apply ensure_loaded_cold. now rewrite Hg.
Qed.

Lemma startup_with_missing_file_is_retried_witness :
  glob (startup Sample.env_without_scaler) = initial_globals /\
  glob (snd (predict Sample.env (Ok (Some Sample.site))
               (startup Sample.env_without_scaler)))
  = Sample.loaded.
Proof.
  destruct (startup_with_missing_file_is_retried Sample.env_without_scaler Sample.env
              (Ok (Some Sample.site))) as [Hg Hw].
  - vm_compute. discriminate.
  - split; [exact Hg|]. rewrite Hw. reflexivity.
Defined.
